(** * Table and image extraction of the sector dashboard (app.py)

    A shallow embedding of the helper functions of [app.py]:
    [find_table_start], [find_table_end], [display_table_from_sheet],
    [extract_images_from_sheet] and [load_data], with the properties of
    the specification that concern them.

    A sheet read with [header=None] is a grid of cells whose row labels
    and column labels are the positions 0, 1, 2, ...; Streamlit calls
    ([st.error], [st.warning], [st.info], [st.dataframe]) are recorded
    as the list of elements a function puts on the page; a Python
    exception is a value of [Exn] carried by [Raise]. *)

From Stdlib Require Import Ascii.
From stdpp Require Import base option list strings gmap pretty.

(** ** Cells, rows and grids *)

(** A cell of a sheet: empty (pandas [NaN]), text, or a number. *)
Inductive Cell : Type :=
  | CNull
  | CText (s : string)
  | CNum (n : Z).

Abbreviation Row := (list Cell).
Abbreviation Grid := (list (list Cell)).

(** [Series.isnull()] on one cell. *)
Definition isnull (c : Cell) : bool :=
  match c with
  | CNull => true
  | _ => false
  end.

(** [row.isnull().all()]: every cell of the row is empty (true for a
    row without cells). *)
Definition all_null (row : Row) : bool := forallb isnull row.

(** ** Python strings *)

(** [s.startswith(t)]. *)
Fixpoint starts_with (t s : string) : bool :=
  match t, s with
  | EmptyString, _ => true
  | String a t', String b s' => if decide (a = b) then starts_with t' s' else false
  | String _ _, EmptyString => false
  end.

(** [t in s] on Python strings: [t] occurs in [s] as a contiguous,
    case-sensitive substring. *)
Fixpoint str_in (t s : string) : bool :=
  starts_with t s ||
  match s with
  | EmptyString => false
  | String _ s' => str_in t s'
  end.

(** ** What pandas prints and converts

    [row.to_string()] and [Index.astype(str)] are functions of pandas,
    not of [app.py]. The functions of [app.py] are embedded over an
    arbitrary [Pandas] structure; [object_pandas] below is the instance
    used to run them. *)
Class Pandas : Type := {
  (** [row.to_string()] for a row of a sheet *)
  to_string : Row → string;
  (** the names [Index(header_row).astype(str)] *)
  astype_str : Row → list string;
  (** [astype] keeps the number of labels *)
  astype_str_length : ∀ row, length (astype_str row) = length row
}.

(** A table as [st.dataframe] receives it: column names and rows of
    cells, both in display order. *)
Record DataFrame : Type := mkFrame {
  columns : list string;
  rows : Grid
}.

(** Python exceptions that the modelled calls raise. *)
Inductive Exn : Type :=
  | IndexError (msg : string)
  | KeyError (msg : string)
  | ValueError (msg : string)
  | AttributeError (msg : string)
  | FileNotFoundError (msg : string)
  | InvalidFileException (msg : string).

(** [str(e)]. *)
Definition exn_str (e : Exn) : string :=
  match e with
  | IndexError msg | KeyError msg | ValueError msg
  | AttributeError msg | FileNotFoundError msg | InvalidFileException msg => msg
  end.

(** The outcome of a call: a value, or an exception that reaches the
    caller. *)
Inductive Result (A : Type) : Type :=
  | Return (a : A)
  | Raise (e : Exn).
Arguments Return {A} a.
Arguments Raise {A} e.

(** What a function puts on the page. *)
Inductive Element : Type :=
  | StError (msg : string)
  | StWarning (msg : string)
  | StInfo (msg : string)
  | StDataframe (table : DataFrame).

(** ** Table end, slices, column names, trimming *)

(** [find_table_end(df, start_search_from)]: the first [i] of
    [range(start_search_from, len(df))] whose row is all empty, else
    [len(df)]. *)
Definition find_table_end (df : Grid) (start_search_from : nat) : nat :=
  match
    List.find (λ i, match df !! i with
                    | Some row => all_null row
                    | None => false
                    end)
              (seq start_search_from (length df - start_search_from))
  with
  | Some i => i
  | None => length df
  end.

(** [df.iloc[a:b]] for [0 <= a] and [0 <= b]. *)
Definition iloc_slice (df : Grid) (a b : nat) : Grid := take (b - a) (drop a df).

(** The loop that renames duplicate column names, with the dictionary
    [seen]; the result is [new_columns]. *)
Fixpoint dedup_loop (cols : list string) (seen : gmap string nat) : list string :=
  match cols with
  | [] => []
  | col :: rest =>
      match seen !! col with
      | None => col :: dedup_loop rest (<[col := 1]> seen)
      | Some count =>
          (col +:+ "_" +:+ pretty count) :: dedup_loop rest (<[col := count + 1]> seen)
      end
  end.

Definition dedup_columns (cols : list string) : list string := dedup_loop cols ∅.

(** [dropna(how='all', axis=0)]: rows whose cells are all empty go. *)
Definition dropna_rows (t : DataFrame) : DataFrame :=
  mkFrame (columns t) (filter (λ r, all_null r = false) (rows t)).

(** Column [j] has a cell that is not empty, in some row. *)
Definition col_notna_any (rs : Grid) (j : nat) : bool :=
  existsb (λ r, match r !! j with
                | Some c => negb (isnull c)
                | None => false
                end) rs.

(** Boolean selection [l[mask]]. *)
Fixpoint select {A : Type} (mask : list bool) (l : list A) : list A :=
  match mask, l with
  | b :: mask', x :: l' => if b then x :: select mask' l' else select mask' l'
  | _, _ => []
  end.

(** [dropna(how='all', axis=1)]: columns whose cells are all empty go
    (every column, when the table has no row). *)
Definition dropna_cols (t : DataFrame) : DataFrame :=
  let mask := col_notna_any (rows t) <$> seq 0 (length (columns t)) in
  mkFrame (select mask (columns t)) (select mask <$> rows t).

(** [st.dataframe(df)]: the table is put on the page, unless two of
    its columns have the same name; the conversion of the frame then
    raises ValueError (the message goes on with the list of the
    names). *)
Definition st_dataframe (t : DataFrame) : Result (list Element) :=
  if decide (NoDup (columns t))
  then Return [StDataframe t]
  else Raise (ValueError "Duplicate column names found").

Section Locator.
Context `{Pandas}.

(** [for index, row in df.iterrows(): if header_text in row.to_string():
    return index], from the row labelled [index] on. *)
Fixpoint iterrows_find (rows : Grid) (header_text : string) (index : nat) : option nat :=
  match rows with
  | [] => None
  | row :: rest =>
      if str_in header_text (to_string row) then Some index
      else iterrows_find rest header_text (S index)
  end.

(** [find_table_start(df, header_text)]; Python's [None] is [None]. *)
Definition find_table_start (df : Grid) (header_text : string) : option nat :=
  iterrows_find df header_text 0.

(** [display_table_from_sheet(sheet_df, table_title)]: the elements it
    shows, or the exception it raises. *)
Definition display_table_from_sheet (sheet_df : Grid) (table_title : string)
    : Result (list Element) :=
  match find_table_start sheet_df table_title with
  | Some start_row =>
      match sheet_df !! (start_row + 1) with
      | None => Raise (IndexError "single positional indexer is out-of-bounds")
      | Some header_row =>
          let data_start_row := start_row + 2 in
          let table_end_row := find_table_end sheet_df data_start_row in
          let table_df := iloc_slice sheet_df data_start_row table_end_row in
          let new_columns := dedup_columns (astype_str header_row) in
          st_dataframe (dropna_cols (dropna_rows (mkFrame new_columns table_df)))
      end
  | None =>
      if str_in "Forbidden" table_title
      then Return [StInfo ("No '" +:+ table_title +:+ "' found for this sector.")]
      else Return [StWarning ("Could not find the table '" +:+ table_title +:+ "'.")]
  end.

End Locator.

(** ** pandas on rows of dtype object

    How pandas 2 prints a row that [iterrows] yields with dtype object
    (a row with a text cell), and what [astype(str)] gives for its
    cells. Numbers are Python integers here, and a text is a
    sequence of one-byte characters. *)

Definition newline : string := String "010"%char "".

(** [pprint_thing(s, escape_chars=("\t", "\r", "\n"))]. *)
Definition escape_char (a : ascii) : string :=
  if decide (a = "009"%char) then "\t"
  else if decide (a = "010"%char) then "\n"
  else if decide (a = "013"%char) then "\r"
  else String a "".

Fixpoint pprint_thing (s : string) : string :=
  match s with
  | EmptyString => ""
  | String a s' => escape_char a +:+ pprint_thing s'
  end.

(** The text of one value of the Series; [na_rep] is ["NaN"]. *)
Definition format_cell (c : Cell) : string :=
  match c with
  | CNull => "NaN"
  | CText s => pprint_thing s
  | CNum n => pretty n
  end.

Fixpoint spaces (n : nat) : string :=
  match n with
  | 0 => ""
  | S n' => String " "%char (spaces n')
  end.

(** [s.rjust(w)] and [s.ljust(w)]. *)
Definition rjust (s : string) (w : nat) : string := spaces (w - String.length s) +:+ s.
Definition ljust (s : string) (w : nat) : string := s +:+ spaces (w - String.length s).

(** [display.max_colwidth]. *)
Definition max_colwidth : nat := 50.

(** [_make_fixed_width(strings, justify="right")]: values wider than
    [max_colwidth] are cut and end in three dots. *)
Definition make_fixed_width (strings : list string) : list string :=
  let max_len := max_list (String.length <$> strings) `min` max_colwidth in
  (λ x, rjust (if decide (max_len < String.length x)
               then String.substring 0 (max_len - 3) x +:+ "..."
               else x) max_len) <$> strings.

(** [Series.to_string()]: one line per cell, the column label, then
    the value right-justified, each value with a leading space and
    three more spaces between the two. *)
Definition series_to_string (row : Row) : string :=
  match row with
  | [] => "Series([], )"
  | _ =>
      let fmt_values := make_fixed_width ((λ c, " " +:+ format_cell c) <$> row) in
      let fmt_index := (λ j : nat, pretty j) <$> seq 0 (length row) in
      let width := max_list (String.length <$> fmt_index) + 3 in
      String.concat newline (zip_with (λ l v, ljust l width +:+ v) fmt_index fmt_values)
  end.

(** [str(x)] of one label. *)
Definition cell_str (c : Cell) : string :=
  match c with
  | CNull => "nan"
  | CText s => s
  | CNum n => pretty n
  end.

#[export] Instance object_pandas : Pandas := {|
  to_string := series_to_string;
  astype_str := fmap cell_str;
  astype_str_length := length_fmap cell_str
|}.

(** ** Workbooks on disk *)

(** An image of a sheet with its anchor [image.anchor._from] and its
    data [image.ref]. *)
Record Image : Type := mkImage {
  anchor_row : Z;
  anchor_col : Z;
  ref : string
}.

(** An entry of [sheet._images]: an image whose anchor cell can be
    read, or one for which reading [image.anchor._from] raises (an
    anchor without a [_from] marker). *)
Inductive SheetImage : Type :=
  | Readable (image : Image)
  | Unreadable (e : Exn).

Record Sheet : Type := mkSheet {
  cells : Grid;
  sheet_images : list SheetImage
}.

(** The content of a path: a workbook, its sheets in file order, or a
    file that the reading library rejects with [e]. *)
Inductive FileContent : Type :=
  | Workbook (sheets : list (string * Sheet))
  | Corrupt (e : Exn).

(** The paths that exist, with their content. *)
Abbreviation FileSystem := (gmap string FileContent).

(** The first sheet with this name. *)
Fixpoint get_sheet (sheets : list (string * Sheet)) (name : string) : option Sheet :=
  match sheets with
  | [] => None
  | (n, sh) :: rest => if decide (n = name) then Some sh else get_sheet rest name
  end.

(** ** Images *)

(** [openpyxl.load_workbook(excel_path)]. *)
Definition load_workbook (fs : FileSystem) (excel_path : string)
    : Result (list (string * Sheet)) :=
  match fs !! excel_path with
  | None => Raise (FileNotFoundError ("No such file or directory: '" +:+ excel_path +:+ "'"))
  | Some (Corrupt e) => Raise e
  | Some (Workbook sheets) => Return sheets
  end.

(** [workbook[sheet_name]]. *)
Definition workbook_getitem (workbook : list (string * Sheet)) (sheet_name : string)
    : Result Sheet :=
  match get_sheet workbook sheet_name with
  | Some sheet => Return sheet
  | None => Raise (KeyError ("Worksheet " +:+ sheet_name +:+ " does not exist."))
  end.

(** The loop [for image in sheet._images], threading the dictionary
    [images]; it stops at the first entry that raises and hands back
    the dictionary as it is then. *)
Fixpoint scan_images (entries : list SheetImage) (images : gmap string string)
    : gmap string string * Result unit :=
  match entries with
  | [] => (images, Return ())
  | Unreadable e :: _ => (images, Raise e)
  | Readable image :: rest =>
      let row := anchor_row image in
      let col := anchor_col image in
      if bool_decide (images !! "plot1" = None) && bool_decide (19 ≤ row)%Z
         && bool_decide (col = 0)%Z
      then scan_images rest (<["plot1" := ref image]> images)
      else if bool_decide (images !! "plot2" = None) && bool_decide (19 ≤ row)%Z
              && bool_decide (col = 11)%Z
      then scan_images rest (<["plot2" := ref image]> images)
      else scan_images rest images
  end.

(** The body of the [try] block, from the dictionary [images]. *)
Definition extract_try (fs : FileSystem) (excel_path sheet_name : string)
    (images : gmap string string) : gmap string string * Result unit :=
  match load_workbook fs excel_path with
  | Raise e => (images, Raise e)
  | Return workbook =>
      match workbook_getitem workbook sheet_name with
      | Raise e => (images, Raise e)
      | Return sheet => scan_images (sheet_images sheet) images
      end
  end.

(** [extract_images_from_sheet(excel_path, sheet_name)]: the returned
    dictionary and the elements put on the page. [except Exception]
    handles every [Exn]. *)
Definition extract_images_from_sheet (fs : FileSystem) (excel_path sheet_name : string)
    : Result (gmap string string * list Element) :=
  match extract_try fs excel_path sheet_name ∅ with
  | (images, Return _) => Return (images, [])
  | (images, Raise e) =>
      Return (images, [StError ("Failed to extract images from Excel: " +:+ exn_str e)])
  end.

(** ** Loading *)

(** [xls.parse(name, header=0)]: the first row is taken as the header,
    the rows after it are the data. *)
Record Summary : Type := mkSummary {
  summary_header : Row;
  summary_rows : Grid
}.

Definition header0 (g : Grid) : Summary :=
  match g with
  | [] => mkSummary [] []
  | h :: body => mkSummary h body
  end.

(** [xls.parse(name, header=...)] raises [ValueError] for a name that
    is not a sheet; with [header=None] the grid is handed over as it
    is. *)
Definition parse_header0 (sheets : list (string * Sheet)) (name : string) : Result Summary :=
  match get_sheet sheets name with
  | Some sheet => Return (header0 (cells sheet))
  | None => Raise (ValueError ("Worksheet named '" +:+ name +:+ "' not found"))
  end.

Definition parse_raw (sheets : list (string * Sheet)) (name : string) : Result Grid :=
  match get_sheet sheets name with
  | Some sheet => Return (cells sheet)
  | None => Raise (ValueError ("Worksheet named '" +:+ name +:+ "' not found"))
  end.

(** [{sheet_name: xls.parse(sheet_name, header=None) for sheet_name in
    names}], filling [acc] in the order of [names]. *)
Fixpoint sector_dict (sheets : list (string * Sheet)) (names : list string)
    (acc : gmap string Grid) : Result (gmap string Grid) :=
  match names with
  | [] => Return acc
  | sheet_name :: rest =>
      match parse_raw sheets sheet_name with
      | Raise e => Raise e
      | Return g => sector_dict sheets rest (<[sheet_name := g]> acc)
      end
  end.

Definition missing_file_message (excel_path : string) : string :=
  "Error: The file '" +:+ excel_path +:+ "' was not found.".

Definition missing_sheet_message : string :=
  "Error: A sheet named 'Introduction' was not found in the Excel file.".

(** [load_data(excel_path)]: the pair it returns and the elements it
    puts on the page; an exception of [pd.ExcelFile] is not handled. *)
Definition load_data (fs : FileSystem) (excel_path : string)
    : Result ((option (gmap string Grid) * option Summary) * list Element) :=
  match fs !! excel_path with
  | None => Return ((None, None), [StError (missing_file_message excel_path)])
  | Some (Corrupt e) => Raise e
  | Some (Workbook xls) =>
      match parse_header0 xls "Introduction" with
      | Raise (ValueError _) => Return ((None, None), [StError missing_sheet_message])
      | Raise e => Raise e
      | Return summary_df =>
          let all_sheet_names := xls.*1 in
          let sector_sheet_names :=
            filter (λ name, name ≠ "Introduction") all_sheet_names in
          match sector_dict xls sector_sheet_names ∅ with
          | Raise e => Raise e
          | Return sector_data => Return ((Some sector_data, Some summary_df), [])
          end
      end
  end.

(** [summary_df.empty]: no row or no column. *)
Definition summary_empty (s : Summary) : bool :=
  match summary_rows s, summary_header s with
  | [], _ | _, [] => true
  | _, _ => false
  end.

(** The guard of the script after [load_data]:
    [if sector_data is None or summary_df.empty: st.stop()]; [true]
    when the script stops there. *)
Definition stops_after_load (loaded : option (gmap string Grid) * option Summary)
    : Result bool :=
  match loaded with
  | (None, _) => Return true
  | (Some _, Some summary_df) => Return (summary_empty summary_df)
  | (Some _, None) => Raise (AttributeError "'NoneType' object has no attribute 'empty'")
  end.

(** ** The contract of the specification *)

(** [locate(grid, title) -> Table | NotFound] read off what
    [display_table_from_sheet] shows: the table handed to
    [st.dataframe], or NotFound when a notice is shown in its place. *)
Inductive Located : Type :=
  | Table (t : DataFrame)
  | NotFound.

Definition locate `{Pandas} (grid : Grid) (title : string) : Result Located :=
  match display_table_from_sheet grid title with
  | Return [StDataframe t] => Return (Table t)
  | Return _ => Return NotFound
  | Raise e => Raise e
  end.

(** The frame that [display_table_from_sheet] hands to
    [st.dataframe] for the title row [s] and the header row [header]:
    the renamed names over the data extent, trimmed. *)
Definition table_frame `{Pandas} (grid : Grid) (s : nat) (header : Row) : DataFrame :=
  dropna_cols (dropna_rows
    (mkFrame (dedup_columns (astype_str header))
             (iloc_slice grid (s + 2) (find_table_end grid (s + 2))))).

(** The columns of a table that are not empty in every row: the
    positions below [width] at which some row has a cell that is not
    empty, in increasing order. *)
Definition nonempty_columns (body : Grid) (width : nat) : list nat :=
  filter (λ j, col_notna_any body j = true) (seq 0 width).

(** The entries of [l] at the given positions, in the order of the
    positions. *)
Definition pick {A : Type} (positions : list nat) (l : list A) : list A :=
  omap (λ j, l !! j) positions.

(** The text of a row in the words of the specification: the cell
    values, stringified, joined by a blank. *)
Definition spec_row_text (row : Row) : string := String.concat " " (cell_str <$> row).

(** The two placement rules of the specification. *)
Definition plot1_rule (image : Image) : bool :=
  bool_decide (19 ≤ anchor_row image)%Z && bool_decide (anchor_col image = 0)%Z.
Definition plot2_rule (image : Image) : bool :=
  bool_decide (19 ≤ anchor_row image)%Z && bool_decide (anchor_col image = 11)%Z.

(** The new name of a column whose name occurred [k] times before. *)
Definition renamed (name : string) (k : nat) : string :=
  match k with
  | 0 => name
  | S _ => name +:+ "_" +:+ pretty k
  end.

(** Occurrences of [name] in [l]. *)
Definition occurrences (name : string) (l : list string) : nat :=
  length (filter (λ c, c = name) l).

(** The invariant of the renaming loop: [seen] holds, for every name met so far, the number of times it
    was met. *)
Definition seen_counts (seen : gmap string nat) (pre : list string) : Prop :=
  ∀ name, seen !! name = match occurrences name pre with
                         | 0 => None
                         | S k => Some (S k)
                         end.

(** Every row of the grid has the same number of cells, as in a
    DataFrame. *)
Definition rectangular (g : Grid) : Prop :=
  ∀ r1 r2, r1 ∈ g → r2 ∈ g → length r1 = length r2.

(** ** The password gate *)

(** The values that the script keeps in [st.session_state]. *)
Inductive SessionValue : Type :=
  | VBool (b : bool)
  | VStr (s : string).

#[export] Instance SessionValue_eq_dec : EqDecision SessionValue.
Proof. solve_decision. Defined.

(** Python's truth value. *)
Definition truthy (v : SessionValue) : bool :=
  match v with
  | VBool b => b
  | VStr s => bool_decide (s ≠ "")
  end.

(** What the script puts on the page: the elements of the helper
    functions and the other Streamlit calls of the script. *)
Inductive PageItem : Type :=
  | StTextInput (label key : string)
  | StHeader (body : string)
  | StSubheader (body : string)
  | StImage (image caption : string)
  | Item (e : Element).

(** [password_entered()], the [on_change] callback of the password
    field, as a change of [st.session_state]; reading a key that is
    not there raises KeyError. *)
Definition password_entered (state : gmap string SessionValue)
    : Result (gmap string SessionValue) :=
  match state !! "password" with
  | None => Raise (KeyError "password")
  | Some typed =>
      if decide (typed = VStr "mtn123")
      then Return (delete "password" (<["password_correct" := VBool true]> state))
      else Return (<["password_correct" := VBool false]> state)
  end.

(** [check_password()]: the value returned and what is put on the
    page. *)
Definition check_password (state : gmap string SessionValue) : bool * list PageItem :=
  match state !! "password_correct" with
  | None => (false, [StTextInput "Password" "password"])
  | Some correct =>
      if negb (truthy correct)
      then (false, [StTextInput "Password" "password";
                    Item (StError "😕 Password incorrect")])
      else (true, [])
  end.

(** ** The sector detail tab *)

(** A part of a script run: the items put on the page so far, and
    the exception that ended the run, if one did. *)
Abbreviation Page := (list PageItem * option Exn)%type.

Definition put (items : list PageItem) : Page := (items, None).

(** Statements one after the other: nothing runs after an exception. *)
Definition page_seq (p q : Page) : Page :=
  match p.2 with
  | Some _ => p
  | None => (p.1 ++ q.1, q.2)
  end.

Declare Scope page_scope.
Delimit Scope page_scope with page.
Notation "p ;; q" := (page_seq p q) (at level 100, q at level 200, right associativity) : page_scope.

Section Detail.
Context `{Pandas}.

(** A call of [display_table_from_sheet] inside the script. *)
Definition show_table (sector_df : Grid) (table_title : string) : Page :=
  match display_table_from_sheet sector_df table_title with
  | Return shown => (Item <$> shown, None)
  | Raise e => ([], Some e)
  end.

(** The two columns of plots, from the dictionary of
    [extract_images_from_sheet]. *)
Definition show_plots (extracted_images : gmap string string) : Page :=
  (match extracted_images !! "plot1" with
   | Some image => put [StImage image "Plot 1"]
   | None => put [Item (StWarning "Plot 1 could not be extracted from the Excel sheet.")]
   end ;;
   match extracted_images !! "plot2" with
   | Some image => put [StImage image "Plot 2"]
   | None => put [Item (StWarning "Plot 2 could not be extracted from the Excel sheet.")]
   end)%page.

(** The block [with tab_details:] of the script, for the selection
    of the sidebar ([None], or the text of a sector id). The layout
    calls [st.tabs] and [st.columns] put nothing on the page
    themselves; the items are listed in the order of the calls. *)
Definition sector_detail (fs : FileSystem) (EXCEL_FILE_PATH : string)
    (sector_data : gmap string (list (list Cell))) (selected_sector : option string) : Page :=
  match selected_sector with
  | Some sector =>
      if decide (sector = "")
      then put [Item (StInfo "Select a sector from the sidebar to view its detailed report.")]
      else
        (put [StHeader ("Detailed Analysis for: `" +:+ sector +:+ "`")] ;;
         match sector_data !! sector with
         | Some sector_df =>
             put [StSubheader "Recommendation Report for Sector"] ;;
             show_table sector_df "Recommendation Report for Sector" ;;
             put [StSubheader "Performance Plots"] ;;
             match extract_images_from_sheet fs EXCEL_FILE_PATH sector with
             | Raise e => ([], Some e)
             | Return (extracted_images, notices) =>
                 put (Item <$> notices) ;; show_plots extracted_images
             end ;;
             put [StSubheader "Cellular Parameters for Source and Top Neighbors"] ;;
             show_table sector_df "Cellular Parameters for Source and Top Neighbors" ;;
             put [StSubheader "Non-Zero Cell Handover Parameter Details"] ;;
             show_table sector_df "Non-Zero Cell Handover Parameter Details" ;;
             put [StSubheader "Forbidden Relations Table"] ;;
             show_table sector_df "Forbidden relations table"
         | None =>
             put [Item (StError ("Data sheet for the selected sector '" +:+ sector +:+
                                 "' could not be found in the Excel file."))]
         end)%page
  | None => put [Item (StInfo "Select a sector from the sidebar to view its detailed report.")]
  end.

End Detail.

(** The titles that the detail tab looks for. *)
Definition detail_titles : list string :=
  ["Recommendation Report for Sector";
   "Cellular Parameters for Source and Top Neighbors";
   "Non-Zero Cell Handover Parameter Details";
   "Forbidden relations table"].

(** The notice of [display_table_from_sheet] for a title that is not
    found. *)
Definition not_found_notice (table_title : string) : Element :=
  if str_in "Forbidden" table_title
  then StInfo ("No '" +:+ table_title +:+ "' found for this sector.")
  else StWarning ("Could not find the table '" +:+ table_title +:+ "'.").

(** * Properties *)

(** ** Substrings *)

Lemma starts_with_spec t s : starts_with t s = true ↔ ∃ b, s = t +:+ b.
Proof.
  revert s; induction t as [|a t IH]; intros s; simpl.
  - split; [intros _; by exists s | done].
  - destruct s as [|b s]; simpl.
    + split; [done | intros [? ?]; discriminate].
    + destruct (decide (a = b)) as [->|Hne].
      * rewrite IH. split; intros [c Hc]; exists c; [by rewrite Hc | by injection Hc].
      * split; [done | intros [c Hc]; injection Hc; intros; congruence].
Qed.

(** [str_in] is containment as a contiguous substring. *)
Lemma str_in_spec t s : str_in t s = true ↔ ∃ a b, s = a +:+ t +:+ b.
Proof.
  induction s as [|c s IH]; simpl.
  - rewrite orb_false_r, starts_with_spec. split.
    + intros [b Hb]. by exists "", b.
    + intros (a & b & Hab). destruct a; [by exists b | discriminate].
  - rewrite orb_true_iff, starts_with_spec, IH. split.
    + intros [[b Hb] | (a & b & Hab)].
      * by exists "", b.
      * exists (String c a), b. by rewrite Hab.
    + intros (a & b & Hab). destruct a as [|c' a]; simpl in Hab.
      * left. by exists b.
      * right. exists a, b. by injection Hab.
Qed.

(** ** Finding the title row *)

Section LocatorFacts.
Context `{Pandas}.

Lemma iterrows_find_first (grid : Grid) (T : string) (k : nat) :
  match iterrows_find grid T k with
  | None => ∀ row, row ∈ grid → str_in T (to_string row) = false
  | Some i =>
      ∃ j row, i = k + j ∧ grid !! j = Some row ∧ str_in T (to_string row) = true ∧
        ∀ j' row', j' < j → grid !! j' = Some row' → str_in T (to_string row') = false
  end.
Proof.
  revert k; induction grid as [|r grid IH]; intros k; simpl.
  - intros row Hin. by apply elem_of_nil in Hin.
  - destruct (str_in T (to_string r)) eqn:Hr.
    + exists 0, r. repeat split; [lia | done | intros; lia].
    + specialize (IH (S k)). destruct (iterrows_find grid T (S k)) as [i|].
      * destruct IH as (j & row & -> & Hj & Hrow & Hbefore).
        exists (S j), row. repeat split; [lia | done | done |].
        intros [|j'] row' Hlt Hl; simpl in Hl; [by simplify_eq | apply (Hbefore j'); [lia | done]].
      * intros row Hin. apply elem_of_cons in Hin as [->|Hin]; [done | by apply IH].
Qed.

Lemma find_table_start_None (grid : Grid) (T : string) :
  find_table_start grid T = None ↔
  ∀ row, row ∈ grid → str_in T (to_string row) = false.
Proof.
  unfold find_table_start. pose proof (iterrows_find_first grid T 0) as Hf.
  destruct (iterrows_find grid T 0) as [i|]; split; try done.
  destruct Hf as (j & row & _ & Hj & Hrow & _). intros Hall.
  rewrite (Hall row) in Hrow; [done | by eapply list_elem_of_lookup_2].
Qed.

Lemma find_table_start_Some (grid : Grid) (T : string) (i : nat) :
  find_table_start grid T = Some i ↔
  (∃ row, grid !! i = Some row ∧ str_in T (to_string row) = true) ∧
  (∀ j row, j < i → grid !! j = Some row → str_in T (to_string row) = false).
Proof.
  unfold find_table_start. pose proof (iterrows_find_first grid T 0) as Hf.
  destruct (iterrows_find grid T 0) as [i'|].
  - destruct Hf as (j & row & Hi' & Hj & Hrow & Hbefore). simpl in Hi'. subst i'. split.
    + intros [= <-]. eauto.
    + intros [(row' & Hi & Hrow') Hfirst]. f_equal.
      destruct (Nat.lt_trichotomy i j) as [Hlt | [-> | Hgt]]; [| done |].
      * rewrite (Hbefore i row' Hlt Hi) in Hrow'. done.
      * rewrite (Hfirst j row Hgt Hj) in Hrow. done.
  - split; [done |]. intros [(row & Hi & Hrow) _].
    rewrite (Hf row) in Hrow; [done | by eapply list_elem_of_lookup_2].
Qed.

Lemma locate_not_found (grid : Grid) (T : string) :
  find_table_start grid T = None → locate grid T = Return NotFound.
Proof.
  intros Hnone. unfold locate, display_table_from_sheet. rewrite Hnone.
  by destruct (str_in "Forbidden" T).
Qed.

(** C1, as the code has it: the rows are scanned from the top and the
    title is looked for, as a case-sensitive substring, in the text
    that pandas prints for the row ([row.to_string()]). When no row's
    printed text contains the title the result is NotFound; otherwise
    the title row is the first row whose printed text contains it. *)
Theorem find_table_start_first_match (grid : Grid) (T : string) :
  ((∀ row, row ∈ grid → str_in T (to_string row) = false) →
     find_table_start grid T = None ∧ locate grid T = Return NotFound) ∧
  (∀ i row, grid !! i = Some row → str_in T (to_string row) = true →
     (∀ j row', j < i → grid !! j = Some row' → str_in T (to_string row') = false) →
     find_table_start grid T = Some i) ∧
  (∀ i, find_table_start grid T = Some i →
     (∃ row, grid !! i = Some row ∧ str_in T (to_string row) = true) ∧
     (∀ j row', j < i → grid !! j = Some row' → str_in T (to_string row') = false)).
Proof.
  split; [| split].
  - intros Hall. apply find_table_start_None in Hall. split; [done | by apply locate_not_found].
  - intros i row Hi Hrow Hfirst. apply find_table_start_Some. eauto.
  - intros i Hi. by apply find_table_start_Some.
Qed.

End LocatorFacts.

(** The printed text of a row is not the blank-joined cell text: it
    has the column labels in it. With the one-column grid below no
    cell text contains "0", yet the label of the first column does,
    and the first row is taken as the title row. *)
Lemma printed_label_matches :
  ¬ (∀ (grid : Grid) (T : string),
       (∀ row, row ∈ grid → str_in T (spec_row_text row) = false) →
       locate grid T = Return NotFound).
Proof.
  intros Hclaim.
  specialize (Hclaim [[CText "x"]; [CText "h"]; [CText "v"]] "0").
  assert (locate [[CText "x"]; [CText "h"]; [CText "v"]] "0"
          = Return (Table (mkFrame ["h"] [[CText "v"]]))) as Hrun by (vm_compute; reflexivity).
  rewrite Hclaim in Hrun; [discriminate |].
  intros row Hin. repeat (apply elem_of_cons in Hin as [->|Hin]; [by vm_compute |]).
  by apply elem_of_nil in Hin.
Qed.

(** Nor does a title that runs over two cells match: the cells are
    printed on separate lines, each after its label. *)
Lemma joined_cells_not_matched :
  str_in "Sector Report" (spec_row_text [CText "Sector"; CText "Report"]) = true ∧
  to_string [CText "Sector"; CText "Report"] = "0    Sector" +:+ newline +:+ "1    Report" ∧
  locate [[CText "Sector"; CText "Report"]; [CText "ID"; CText "Value"]] "Sector Report"
  = Return NotFound.
Proof. by vm_compute. Qed.

(** The scenario of the specification: title, header ID and Value,
    two data rows, then an empty row. *)
Example locate_scenario :
  locate [[CNull; CNull];
          [CText "Recommendation Report for Sector"; CNull];
          [CText "ID"; CText "Value"];
          [CText "x1"; CText "10"];
          [CText "x2"; CText "20"];
          [CNull; CNull]] "Recommendation Report for Sector"
  = Return (Table (mkFrame ["ID"; "Value"]
                           [[CText "x1"; CText "10"]; [CText "x2"; CText "20"]])).
Proof. by vm_compute. Qed.

Lemma find_table_start_first_match_witness :
  find_table_start [[CText "x"]; [CText "Report"; CNull]; [CText "Report"]] "Report" = Some 1.
Proof.
  apply (proj1 (proj2 (find_table_start_first_match
           [[CText "x"]; [CText "Report"; CNull]; [CText "Report"]] "Report"))
           1 [CText "Report"; CNull]).
  - reflexivity.
  - vm_compute. reflexivity.
  - intros j row' Hj Hl. destruct j as [|j]; [| lia].
    simpl in Hl. injection Hl as <-. vm_compute. reflexivity.
Defined.

(** ** The data extent *)

Lemma find_seq_first (P : nat → bool) (n start : nat) :
  match List.find P (seq start n) with
  | Some i => (start ≤ i < start + n) ∧ P i = true ∧ ∀ j, start ≤ j < i → P j = false
  | None => ∀ j, start ≤ j < start + n → P j = false
  end.
Proof.
  revert start; induction n as [|n IH]; intros start; simpl.
  - intros j Hj. lia.
  - destruct (P start) eqn:Hstart.
    + repeat split; [lia.. | done | intros j Hj; lia].
    + specialize (IH (S start)). destruct (List.find P (seq (S start) n)) as [i|].
      * destruct IH as (Hi & HP & Hbefore). repeat split; [lia.. | done |].
        intros j Hj. destruct (decide (j = start)) as [->|Hne]; [done | apply Hbefore; lia].
      * intros j Hj. destruct (decide (j = start)) as [->|Hne]; [done | apply IH; lia].
Qed.

(** [find_table_end] from a start inside the grid: the result lies
    between the start and the number of rows, no row before it is all
    empty, and it is the index of an all-empty row unless it is the
    number of rows. *)
Lemma find_table_end_spec (df : Grid) (start : nat) :
  start ≤ length df →
  let e := find_table_end df start in
  start ≤ e ≤ length df ∧
  (∀ i row, start ≤ i < e → df !! i = Some row → all_null row = false) ∧
  (e < length df → ∃ row, df !! e = Some row ∧ all_null row = true).
Proof.
  intros Hstart. unfold find_table_end.
  set (P := λ i, match df !! i with Some row => all_null row | None => false end).
  pose proof (find_seq_first P (length df - start) start) as Hf.
  destruct (List.find P (seq start (length df - start))) as [i|]; simpl.
  - destruct Hf as (Hi & HP & Hbefore). split; [lia |]. split.
    + intros j row Hj Hl. specialize (Hbefore j Hj). unfold P in Hbefore. by rewrite Hl in Hbefore.
    + intros _. unfold P in HP. destruct (df !! i) as [row|]; [eauto | done].
  - split; [lia |]. split; [| lia].
    intros j row Hj Hl. specialize (Hf j). unfold P in Hf. rewrite Hl in Hf. apply Hf. lia.
Qed.

Lemma iloc_slice_lookup (df : Grid) (a b i : nat) :
  iloc_slice df a b !! i = if decide (a + i < b) then df !! (a + i) else None.
Proof.
  unfold iloc_slice. destruct (decide (a + i < b)).
  - rewrite lookup_take_lt by lia. by rewrite lookup_drop.
  - apply lookup_take_ge. lia.
Qed.

Section ExtentFacts.
Context `{Pandas}.

(** What is handed to [st.dataframe] once the title row and the
    header row are there. *)
Lemma display_found (grid : Grid) (T : string) (s : nat) (header : Row) :
  find_table_start grid T = Some s →
  grid !! (s + 1) = Some header →
  display_table_from_sheet grid T =
    st_dataframe (dropna_cols (dropna_rows
      (mkFrame (dedup_columns (astype_str header))
               (iloc_slice grid (s + 2) (find_table_end grid (s + 2)))))).
Proof.
  intros Hs Hh. unfold display_table_from_sheet. by rewrite Hs, Hh.
Qed.

(** C5: with the title at row [s], the rows handed on to the table
    (the frame given to [st.dataframe]) are those from [s + 2] up to,
    not including, the first all-empty row at or after [s + 2]; when
    there is no such row they run to the last row of the grid. Rows
    after that first all-empty row are not in the table, whatever
    they hold. *)
Theorem data_extent (grid : Grid) (T : string) (s : nat) (header : Row) :
  find_table_start grid T = Some s →
  grid !! (s + 1) = Some header →
  ∃ e extent,
    e = find_table_end grid (s + 2) ∧
    display_table_from_sheet grid T =
      st_dataframe (dropna_cols (dropna_rows
        (mkFrame (dedup_columns (astype_str header)) extent))) ∧
    (∀ i row, extent !! i = Some row ↔ s + 2 + i < e ∧ grid !! (s + 2 + i) = Some row) ∧
    length extent = e - (s + 2) ∧
    s + 2 ≤ e ≤ length grid ∧
    (∀ i row, s + 2 ≤ i < e → grid !! i = Some row → all_null row = false) ∧
    (e < length grid → ∃ row, grid !! e = Some row ∧ all_null row = true) ∧
    ((∀ i row, s + 2 ≤ i → grid !! i = Some row → all_null row = false) → e = length grid).
Proof.
  intros Hs Hh.
  assert (s + 2 ≤ length grid) as Hlen by (apply lookup_lt_Some in Hh; lia).
  destruct (find_table_end_spec grid (s + 2) Hlen) as (Hrange & Hnonempty & Hstop).
  exists (find_table_end grid (s + 2)), (iloc_slice grid (s + 2) (find_table_end grid (s + 2))).
  split; [done |]. split; [by apply display_found |]. split.
  { intros i row. rewrite iloc_slice_lookup. case_decide; split.
    - by intros ?.
    - by intros [_ ?].
    - done.
    - intros [? _]. lia. }
  split.
  { unfold iloc_slice. rewrite length_take, length_drop. lia. }
  split; [done |]. split; [done |]. split; [done |].
  intros Hnone. destruct (decide (find_table_end grid (s + 2) < length grid)) as [Hlt|]; [| lia].
  destruct (Hstop Hlt) as (row & Hrow & Hnull).
  rewrite (Hnone (find_table_end grid (s + 2)) row) in Hnull; [done | lia | done].
Qed.

(** C9: when the title row is the last row of the grid there is no
    row at [title_row + 1]; reading the header row raises IndexError,
    and the call gives neither NotFound nor a table. *)
Theorem title_on_last_row (grid : Grid) (T : string) (s : nat) :
  find_table_start grid T = Some s →
  S s = length grid →
  (∃ msg, display_table_from_sheet grid T = Raise (IndexError msg)) ∧
  (∃ msg, locate grid T = Raise (IndexError msg)).
Proof.
  intros Hs Hlast.
  assert (grid !! (s + 1) = None) as Hh by (apply lookup_ge_None; lia).
  unfold locate, display_table_from_sheet. rewrite Hs, Hh. eauto.
Qed.

End ExtentFacts.

Lemma data_extent_witness :
  ∃ e extent,
    e = 4 ∧
    display_table_from_sheet
      [[CText "Report"; CNull]; [CText "ID"; CText "Value"]; [CText "x1"; CNum 10];
       [CText "x2"; CNum 20]; [CNull; CNull]; [CText "later"; CNum 1]] "Report"
    = st_dataframe (dropna_cols (dropna_rows (mkFrame ["ID"; "Value"] extent))) ∧
    extent = [[CText "x1"; CNum 10]; [CText "x2"; CNum 20]].
Proof.
  destruct (data_extent
    [[CText "Report"; CNull]; [CText "ID"; CText "Value"]; [CText "x1"; CNum 10];
     [CText "x2"; CNum 20]; [CNull; CNull]; [CText "later"; CNum 1]] "Report"
    0 [CText "ID"; CText "Value"]) as (e & extent & He & Hshow & Hrows & Hlen & _).
  - vm_compute. reflexivity.
  - reflexivity.
  - exists e, extent. vm_compute in He. split; [exact He |]. split; [exact Hshow |].
    subst e. destruct extent as [|r1 [|r2 [|r3 extent]]]; simpl in Hlen; try discriminate.
    assert (Some r1 = Some [CText "x1"; CNum 10]) as H1
      by (apply (Hrows 0); split; [lia | reflexivity]).
    assert (Some r2 = Some [CText "x2"; CNum 20]) as H2
      by (apply (Hrows 1); split; [lia | reflexivity]).
    congruence.
Defined.

Lemma title_on_last_row_witness :
  ∃ msg, display_table_from_sheet [[CText "a"]; [CText "Report"]] "Report"
         = Raise (IndexError msg).
Proof.
  apply (title_on_last_row [[CText "a"]; [CText "Report"]] "Report" 1).
  - vm_compute. reflexivity.
  - reflexivity.
Defined.

(** ** Column names *)

Lemma occurrences_snoc (name col : string) (l : list string) :
  occurrences name (l ++ [col]) = occurrences name l + (if decide (col = name) then 1 else 0).
Proof.
  unfold occurrences. rewrite filter_app, length_app. f_equal.
  rewrite filter_cons, filter_nil. by destruct (decide (col = name)).
Qed.

Lemma seen_counts_step (seen : gmap string nat) (pre : list string) (col : string) :
  seen_counts seen pre →
  seen_counts (match seen !! col with
               | None => <[col := 1]> seen
               | Some count => <[col := count + 1]> seen
               end) (pre ++ [col]).
Proof.
  intros Hinv name. rewrite occurrences_snoc. pose proof (Hinv col) as Hcol.
  destruct (decide (col = name)) as [->|Hne].
  - destruct (occurrences name pre) as [|k]; rewrite Hcol, lookup_insert_eq; simpl;
      [done | f_equal; lia].
  - rewrite Nat.add_0_r, <- (Hinv name).
    destruct (seen !! col); by rewrite lookup_insert_ne.
Qed.

Lemma dedup_loop_lookup (cols pre : list string) (seen : gmap string nat) :
  seen_counts seen pre →
  ∀ i name, cols !! i = Some name →
    dedup_loop cols seen !! i = Some (renamed name (occurrences name (pre ++ take i cols))).
Proof.
  revert pre seen; induction cols as [|col rest IH]; intros pre seen Hinv i name Hi; [done |].
  pose proof (seen_counts_step seen pre col Hinv) as Hstep.
  destruct i as [|i]; simpl in Hi.
  - injection Hi as ->. simpl. rewrite app_nil_r. rewrite (Hinv name).
    by destruct (occurrences name pre).
  - simpl take. rewrite (cons_middle col pre), app_assoc.
    simpl. destruct (seen !! col); simpl; by apply IH.
Qed.

Lemma dedup_loop_length (cols : list string) (seen : gmap string nat) :
  length (dedup_loop cols seen) = length cols.
Proof.
  revert seen; induction cols as [|col rest IH]; intros seen; [done |].
  simpl. destruct (seen !! col); simpl; by rewrite IH.
Qed.

Lemma dedup_columns_length (cols : list string) :
  length (dedup_columns cols) = length cols.
Proof. apply dedup_loop_length. Qed.

Section ColumnFacts.
Context `{Pandas}.

(** C3: the names that the loop works on are the stringified header
    values; the name at a position is left as it is when it did not
    occur before, and becomes [<name>_<n>] when it occurred [n] times
    before, so the n-th repetition gets the suffix [n], from 1 on.
    The header A, B, A, A becomes A, B, A_1, A_2. *)
Theorem dedup_columns_renames (header : list string) :
  length (dedup_columns header) = length header ∧
  (∀ i name, header !! i = Some name →
     dedup_columns header !! i = Some (renamed name (occurrences name (take i header)))) ∧
  (∀ i name, header !! i = Some name → occurrences name (take i header) = 0 →
     dedup_columns header !! i = Some name) ∧
  (∀ i name n, header !! i = Some name → occurrences name (take i header) = S n →
     dedup_columns header !! i = Some (name +:+ "_" +:+ pretty (S n))) ∧
  dedup_columns ["A"; "B"; "A"; "A"] = ["A"; "B"; "A_1"; "A_2"] ∧
  (∀ grid T s header_row,
     find_table_start grid T = Some s → grid !! (s + 1) = Some header_row →
     ∃ body, display_table_from_sheet grid T =
       st_dataframe (dropna_cols (dropna_rows
         (mkFrame (dedup_columns (astype_str header_row)) body)))).
Proof.
  assert (∀ i name, header !! i = Some name →
     dedup_columns header !! i = Some (renamed name (occurrences name (take i header)))) as Hgen.
  { intros i name Hi. apply (dedup_loop_lookup header [] ∅); [| done].
    intros name'. by rewrite lookup_empty. }
  split; [apply dedup_columns_length |]. split; [done |]. split; [| split; [| split]].
  - intros i name Hi Hz. by rewrite (Hgen i name Hi), Hz.
  - intros i name n Hi Hn. by rewrite (Hgen i name Hi), Hn.
  - by vm_compute.
  - intros grid T s header_row Hs Hh. eexists. by apply display_found.
Qed.

End ColumnFacts.

Lemma dedup_columns_renames_witness :
  dedup_columns ["x"; "y"; "x"; "y"; "x"] !! 4 = Some "x_2".
Proof.
  apply (proj1 (proj2 (proj2 (proj2 (dedup_columns_renames ["x"; "y"; "x"; "y"; "x"]))))
           4 "x" 1).
  - reflexivity.
  - vm_compute. reflexivity.
Defined.

(** C4: the renaming loop does not look at the names it hands out.
    The header A, A, A_1 has its second A renamed to A_1, the name of
    the third column, which is new to the loop and kept. The names
    handed on are not pairwise different; [st.dataframe] raises
    ValueError on them and no table is shown. *)
Theorem dedup_columns_collision :
  dedup_columns ["A"; "A"; "A_1"] = ["A"; "A_1"; "A_1"] ∧
  ¬ NoDup (dedup_columns ["A"; "A"; "A_1"]) ∧
  (∃ msg, display_table_from_sheet
            [[CText "Report"; CNull; CNull];
             [CText "A"; CText "A"; CText "A_1"];
             [CNum 1; CNum 2; CNum 3]] "Report" = Raise (ValueError msg)) ∧
  (∃ msg, locate [[CText "Report"; CNull; CNull];
                  [CText "A"; CText "A"; CText "A_1"];
                  [CNum 1; CNum 2; CNum 3]] "Report" = Raise (ValueError msg)).
Proof.
  split; [by vm_compute |]. split; [| split; eexists; by vm_compute].
  assert (dedup_columns ["A"; "A"; "A_1"] = ["A"; "A_1"; "A_1"]) as -> by (by vm_compute).
  intros Hnd. apply NoDup_cons in Hnd as [_ Hnd]. apply NoDup_cons in Hnd as [Hnotin _].
  apply Hnotin. apply list_elem_of_singleton. reflexivity.
Qed.

(** ** Trimming *)

Lemma all_null_false (row : Row) :
  all_null row = false ↔ ∃ j c, row !! j = Some c ∧ isnull c = false.
Proof.
  unfold all_null. induction row as [|c row IH]; simpl.
  - split; [done | by intros (j & c & Hj & _)].
  - rewrite andb_false_iff, IH. split.
    + intros [Hc | (j & c' & Hj & Hc')]; [by exists 0, c | by exists (S j), c'].
    + intros ([|j] & c' & Hj & Hc'); simpl in Hj; [left; by simplify_eq | right; eauto].
Qed.

Lemma col_notna_any_true (rs : Grid) (j : nat) :
  col_notna_any rs j = true ↔ ∃ r c, r ∈ rs ∧ r !! j = Some c ∧ isnull c = false.
Proof.
  unfold col_notna_any. rewrite existsb_exists. split.
  - intros (r & Hin & Hr). apply list_elem_of_In in Hin.
    destruct (r !! j) as [c|] eqn:Hj; [| done].
    exists r, c. by rewrite negb_true_iff in Hr.
  - intros (r & c & Hin & Hj & Hc). exists r. apply list_elem_of_In in Hin.
    by rewrite Hj, Hc.
Qed.

(** Rows that are all empty do not count for a column. *)
Lemma col_notna_any_filter (rs : Grid) (j : nat) :
  col_notna_any (filter (λ r, all_null r = false) rs) j = col_notna_any rs j.
Proof.
  apply eq_true_iff_eq. rewrite !col_notna_any_true. split.
  - intros (r & c & Hin & Hj & Hc). apply list_elem_of_filter in Hin as [_ Hin]. eauto.
  - intros (r & c & Hin & Hj & Hc). exists r, c. split; [| done].
    apply list_elem_of_filter. split; [| done]. apply all_null_false. eauto.
Qed.

Lemma select_sublist {A : Type} (mask : list bool) (l : list A) :
  select mask l `sublist_of` l.
Proof.
  revert l; induction mask as [|b mask IH]; intros [|x l]; simpl;
    try apply sublist_nil_l.
  destruct b; [by apply sublist_skip | by apply sublist_cons].
Qed.

Lemma select_elem {A : Type} (mask : list bool) (l : list A) (j : nat) (x : A) :
  mask !! j = Some true → l !! j = Some x → x ∈ select mask l.
Proof.
  revert l j; induction mask as [|b mask IH]; intros [|y l] [|j] Hm Hl; simplify_eq/=.
  - apply elem_of_cons. by left.
  - destruct b; [apply elem_of_cons; right |]; by eapply IH.
Qed.

(** The selected position [j'] is one position [j] of the mask, the
    same for every list of that length. *)
Lemma select_lookup {A : Type} (mask : list bool) (l : list A) (j' : nat) (x : A) :
  select mask l !! j' = Some x →
  ∃ j, mask !! j = Some true ∧ l !! j = Some x ∧
       ∀ (l2 : list Cell), length l2 = length l → select mask l2 !! j' = l2 !! j.
Proof.
  revert l j'; induction mask as [|b mask IH]; intros [|y l] j' Hsel; simplify_eq/=.
  destruct b.
  - destruct j' as [|j']; simpl in Hsel.
    + injection Hsel as ->. exists 0. repeat split. by intros [|y2 l2] Hlen.
    + destruct (IH l j' Hsel) as (j & Hm & Hl & Hsame). exists (S j). repeat split; [done.. |].
      intros [|y2 l2] Hlen; [done |]. simpl. apply Hsame. simpl in Hlen. lia.
  - destruct (IH l j' Hsel) as (j & Hm & Hl & Hsame). exists (S j). repeat split; [done.. |].
    intros [|y2 l2] Hlen; [done |]. simpl. apply Hsame. simpl in Hlen. lia.
Qed.

(** Trimming a table whose rows are as long as its header. *)
Lemma trim_frame (names : list string) (body : Grid) :
  (∀ r, r ∈ body → length r = length names) →
  let mask := col_notna_any body <$> seq 0 (length names) in
  let t' := dropna_cols (dropna_rows (mkFrame names body)) in
  t' = mkFrame (select mask names) (select mask <$> filter (λ r, all_null r = false) body) ∧
  (∀ r, r ∈ rows t' → all_null r = false) ∧
  (∀ j, j < length (columns t') → col_notna_any (rows t') j = true).
Proof.
  intros Hlen mask t'.
  assert (t' = mkFrame (select mask names)
                 (select mask <$> filter (λ r, all_null r = false) body)) as Ht'.
  { unfold t', dropna_cols, dropna_rows; simpl. unfold mask.
    assert (col_notna_any (filter (λ r, all_null r = false) body) <$> seq 0 (length names)
            = col_notna_any body <$> seq 0 (length names)) as ->; [| done].
    apply list_fmap_ext. intros _ j _. apply col_notna_any_filter. }
  assert (∀ j, j < length names → mask !! j = Some (col_notna_any body j)) as Hmask.
  { intros j Hj. unfold mask. rewrite list_lookup_fmap, lookup_seq_lt by done. done. }
  split; [done |]. rewrite Ht'; simpl. split.
  - intros r' Hin. apply list_elem_of_fmap in Hin as (r & -> & Hin).
    apply list_elem_of_filter in Hin as [Hr Hin].
    apply all_null_false in Hr as (j & c & Hj & Hc).
    assert (j < length names) as Hlt by (rewrite <- (Hlen r Hin); by eapply lookup_lt_Some).
    apply all_null_false.
    assert (c ∈ select mask r) as Hc'.
    { apply (select_elem mask r j); [| done]. rewrite (Hmask j Hlt). f_equal.
      apply col_notna_any_true. eauto. }
    apply list_elem_of_lookup in Hc' as [j' Hj']. eauto.
  - intros j' Hj'. apply lookup_lt_is_Some in Hj' as [name Hname].
    destruct (select_lookup mask names j' name Hname) as (j & Hm & Hl & Hsame).
    assert (j < length names) as Hlt by (by eapply lookup_lt_Some).
    rewrite (Hmask j Hlt) in Hm. injection Hm as Hm.
    rewrite <- col_notna_any_filter in Hm.
    apply col_notna_any_true in Hm as (r & c & Hin & Hj & Hc).
    apply col_notna_any_true. exists (select mask r), c. split; [| split; [| done]].
    + by apply list_elem_of_fmap_2.
    + rewrite Hsame; [done |]. apply list_elem_of_filter in Hin as [_ Hin]. by apply Hlen.
Qed.

Lemma omap_ext_in {A B : Type} (f g : A → option B) (l : list A) :
  (∀ x, x ∈ l → f x = g x) → omap f l = omap g l.
Proof.
  induction l as [|x l IH]; intros Hfg; [done |].
  assert (omap f l = omap g l) as IH' by (apply IH; intros y Hy; apply Hfg; by right).
  change (omap f (x :: l)) with (match f x with Some y => y :: omap f l | None => omap f l end).
  change (omap g (x :: l)) with (match g x with Some y => y :: omap g l | None => omap g l end).
  rewrite (Hfg x) by (by left). by rewrite IH'.
Qed.

Lemma omap_none {A B : Type} (f : A → option B) (l : list A) :
  (∀ x, f x = None) → omap f l = [].
Proof.
  intros Hf. induction l as [|x l IH]; [done |].
  change (omap f (x :: l)) with (match f x with Some y => y :: omap f l | None => omap f l end).
  by rewrite Hf.
Qed.

Lemma omap_cons {A B : Type} (f : A → option B) (x : A) (l : list A) :
  omap f (x :: l) = match f x with
                    | Some y => y :: omap f l
                    | None => omap f l
                    end.
Proof. done. Qed.

(** Selecting by a mask computed position by position is picking the
    positions at which the mask holds. *)
Lemma select_pick_from {A : Type} (P : nat → bool) (n k : nat) (l : list A) :
  select (P <$> seq k n) l =
  omap (λ j, l !! (j - k)) (filter (λ j, P j = true) (seq k n)).
Proof.
  revert k l; induction n as [|n IH]; intros k l; [done |].
  assert (∀ (x : A) l', omap (λ j, (x :: l') !! (j - k)) (filter (λ j, P j = true) (seq (S k) n))
          = omap (λ j, l' !! (j - S k)) (filter (λ j, P j = true) (seq (S k) n))) as Hshift.
  { intros x l'. apply omap_ext_in. intros j Hj.
    apply list_elem_of_filter in Hj as [_ Hj]. apply elem_of_seq in Hj.
    by replace (j - k) with (S (j - S k)) by lia. }
  simpl seq. rewrite fmap_cons. destruct l as [|x l'].
  - simpl. symmetry. apply omap_none. intros j. apply lookup_nil.
  - destruct (P k) eqn:Hk; simpl select.
    + rewrite filter_cons_True by done. rewrite omap_cons, Nat.sub_diag. simpl lookup.
      by rewrite Hshift, IH.
    + rewrite filter_cons_False by (by rewrite Hk). by rewrite Hshift, IH.
Qed.

Lemma select_pick (body : Grid) {A : Type} (n : nat) (l : list A) :
  select (col_notna_any body <$> seq 0 n) l = pick (nonempty_columns body n) l.
Proof.
  rewrite select_pick_from. apply omap_ext_in. intros j _. by rewrite Nat.sub_0_r.
Qed.

Lemma filter_all {A : Type} (P : A → Prop) `{!∀ x, Decision (P x)} (l : list A) :
  (∀ x, x ∈ l → P x) → filter P l = l.
Proof.
  induction l as [|x l IH]; intros HP; [done |].
  rewrite filter_cons_True by (apply HP; by left). rewrite IH; [done |].
  intros y Hy. apply HP. by right.
Qed.

(** The data extent holds no all-empty row: it ends before the first
    one. *)
Lemma extent_rows_not_empty (grid : Grid) (start : nat) (r : Row) :
  start ≤ length grid →
  r ∈ iloc_slice grid start (find_table_end grid start) → all_null r = false.
Proof.
  intros Hstart Hin. apply list_elem_of_lookup in Hin as [i Hi].
  rewrite iloc_slice_lookup in Hi. case_decide as Hlt; [| done].
  destruct (find_table_end_spec grid start Hstart) as (_ & Hnonnull & _).
  apply (Hnonnull (start + i)); [lia | done].
Qed.

Section TrimFacts.
Context `{Pandas}.

(** C6: the trim step takes out of a table exactly the rows whose
    cells are all empty and exactly the columns that are empty in
    every row: what is left are the other rows, in their order, each
    cut down to the other columns, in their order. No row and no
    column that is left is all empty. The table shown for a title is
    the trimmed table of the header names over the data extent; the
    extent has no all-empty row, so every row of it is shown. *)
Theorem trim_drops_exactly_empty :
  (∀ (names : list string) (body : Grid),
     (∀ r, r ∈ body → length r = length names) →
     let kept := nonempty_columns body (length names) in
     let t' := dropna_cols (dropna_rows (mkFrame names body)) in
     t' = mkFrame (pick kept names)
                  (pick kept <$> filter (λ r, all_null r = false) body) ∧
     (∀ j, j ∈ kept ↔
           j < length names ∧ ∃ r c, r ∈ body ∧ r !! j = Some c ∧ isnull c = false) ∧
     (∀ r, all_null r = false ↔ ∃ c, c ∈ r ∧ isnull c = false) ∧
     kept `sublist_of` seq 0 (length names) ∧
     columns t' `sublist_of` names ∧
     (∀ r : Row, pick kept r `sublist_of` r) ∧
     filter (λ r, all_null r = false) body `sublist_of` body ∧
     (∀ r, r ∈ rows t' → ∃ c, c ∈ r ∧ isnull c = false) ∧
     (∀ k, k < length (columns t') →
           ∃ r c, r ∈ rows t' ∧ r !! k = Some c ∧ isnull c = false)) ∧
  (∀ (grid : Grid) (T : string) (s : nat) (header : Row) (t' : DataFrame),
     rectangular grid →
     find_table_start grid T = Some s →
     grid !! (s + 1) = Some header →
     display_table_from_sheet grid T = Return [StDataframe t'] →
     let body := iloc_slice grid (s + 2) (find_table_end grid (s + 2)) in
     let kept := nonempty_columns body (length header) in
     t' = mkFrame (pick kept (dedup_columns (astype_str header))) (pick kept <$> body) ∧
     (∀ r, r ∈ body → all_null r = false) ∧
     (∀ r, r ∈ rows t' → ∃ c, c ∈ r ∧ isnull c = false) ∧
     (∀ k, k < length (columns t') →
           ∃ r c, r ∈ rows t' ∧ r !! k = Some c ∧ isnull c = false)).
Proof.
  assert (∀ r : Row, all_null r = false ↔ ∃ c, c ∈ r ∧ isnull c = false) as Hrow.
  { intros r. rewrite all_null_false. split.
    - intros (j & c & Hj & Hc). exists c. split; [by eapply list_elem_of_lookup_2 | done].
    - intros (c & Hin & Hc). apply list_elem_of_lookup in Hin as [j Hj]. eauto. }
  assert (∀ (names : list string) (body : Grid),
     (∀ r, r ∈ body → length r = length names) →
     dropna_cols (dropna_rows (mkFrame names body)) =
       mkFrame (pick (nonempty_columns body (length names)) names)
               (pick (nonempty_columns body (length names)) <$>
                  filter (λ r, all_null r = false) body) ∧
     (∀ r, r ∈ rows (dropna_cols (dropna_rows (mkFrame names body))) →
           ∃ c, c ∈ r ∧ isnull c = false) ∧
     (∀ k, k < length (columns (dropna_cols (dropna_rows (mkFrame names body)))) →
           ∃ r c, r ∈ rows (dropna_cols (dropna_rows (mkFrame names body))) ∧
                  r !! k = Some c ∧ isnull c = false)) as Htrim.
  { intros names body Hlen. destruct (trim_frame names body Hlen) as (Heq & Hrows & Hcols).
    split; [| split].
    - rewrite Heq, select_pick. f_equal. apply list_fmap_ext. intros _ r _. apply select_pick.
    - intros r Hin. apply Hrow. by apply Hrows.
    - intros k Hk. apply col_notna_any_true. by apply Hcols. }
  split.
  - intros names body Hlen kept t'. destruct (Htrim names body Hlen) as (Heq & Hrows & Hcols).
    split; [done |]. split.
    { intros j. unfold kept, nonempty_columns.
      rewrite list_elem_of_filter, elem_of_seq, col_notna_any_true. split.
      - intros [? ?]. split; [lia | done].
      - intros [? ?]. split; [done | lia]. }
    split; [done |]. split; [apply sublist_filter |]. split.
    { unfold t'. rewrite Heq. simpl. unfold kept. rewrite <- select_pick. apply select_sublist. }
    split.
    { intros r. unfold kept. rewrite <- select_pick. apply select_sublist. }
    split; [apply sublist_filter |]. done.
  - intros grid T s header t' Hrect Hs Hh Hshow body kept.
    rewrite (display_found grid T s header Hs Hh) in Hshow. unfold st_dataframe in Hshow.
    case_decide as Hnd; [| done]. injection Hshow as Hshow.
    assert (s + 2 ≤ length grid) as Hstart by (apply lookup_lt_Some in Hh; lia).
    assert (∀ r, r ∈ body → all_null r = false) as Hbody
      by (intros r Hin; by eapply extent_rows_not_empty).
    assert (∀ r, r ∈ body → length r = length (dedup_columns (astype_str header))) as Hlen.
    { intros r Hin. rewrite dedup_columns_length, astype_str_length.
      apply Hrect; [| by eapply list_elem_of_lookup_2].
      eapply elem_of_sublist; [done |]. unfold body, iloc_slice.
      etrans; [apply sublist_take | apply sublist_drop]. }
    destruct (Htrim _ body Hlen) as (Heq & Hrows & Hcols).
    fold body in Hshow. rewrite Hshow in Heq, Hrows, Hcols.
    rewrite dedup_columns_length, astype_str_length in Heq.
    rewrite (filter_all _ body Hbody) in Heq. done.
Qed.

End TrimFacts.

Lemma trim_drops_exactly_empty_witness :
  dropna_cols (dropna_rows (mkFrame ["a"; "b"; "c"]
    [[CNum 1; CNull; CNull]; [CNull; CNull; CNull]; [CNum 2; CNull; CNum 3]]))
  = mkFrame ["a"; "c"] [[CNum 1; CNull]; [CNum 2; CNum 3]] ∧
  mkFrame ["ID"; "Value"] [[CText "x1"; CNum 10]; [CText "x2"; CNum 20]]
  = mkFrame (pick [0; 2] ["ID"; "Extra"; "Value"])
            (pick [0; 2] <$> [[CText "x1"; CNull; CNum 10]; [CText "x2"; CNull; CNum 20]]).
Proof.
  split.
  - destruct (proj1 trim_drops_exactly_empty ["a"; "b"; "c"]
      [[CNum 1; CNull; CNull]; [CNull; CNull; CNull]; [CNum 2; CNull; CNum 3]])
      as (Heq & _).
    + intros r Hin.
      repeat (apply elem_of_cons in Hin as [->|Hin]); try (by apply elem_of_nil in Hin);
        reflexivity.
    + exact Heq.
  - destruct (proj2 trim_drops_exactly_empty
      [[CText "Report"; CNull; CNull]; [CText "ID"; CText "Extra"; CText "Value"];
       [CText "x1"; CNull; CNum 10]; [CText "x2"; CNull; CNum 20]] "Report"
      0 [CText "ID"; CText "Extra"; CText "Value"]
      (mkFrame ["ID"; "Value"] [[CText "x1"; CNum 10]; [CText "x2"; CNum 20]]))
      as (Heq & _).
    + intros r1 r2 H1 H2.
      repeat (apply elem_of_cons in H1 as [->|H1]); try (by apply elem_of_nil in H1);
        repeat (apply elem_of_cons in H2 as [->|H2]); try (by apply elem_of_nil in H2);
        reflexivity.
    + vm_compute. reflexivity.
    + reflexivity.
    + vm_compute. reflexivity.
    + exact Heq.
Defined.

(** ** Images *)

(** The loop over entries that can all be read, from any dictionary:
    it ends normally, a slot that was filled keeps its image, a free
    slot gets the first image that meets its rule, and no other key
    is touched. *)
Lemma scan_images_readable (ims : list Image) (images : gmap string string) :
  (scan_images (Readable <$> ims) images).2 = Return () ∧
  (scan_images (Readable <$> ims) images).1 !! "plot1" =
    match images !! "plot1" with
    | Some x => Some x
    | None => ref <$> List.find plot1_rule ims
    end ∧
  (scan_images (Readable <$> ims) images).1 !! "plot2" =
    match images !! "plot2" with
    | Some x => Some x
    | None => ref <$> List.find plot2_rule ims
    end ∧
  (∀ k, k ≠ "plot1" → k ≠ "plot2" →
     (scan_images (Readable <$> ims) images).1 !! k = images !! k).
Proof.
  revert images; induction ims as [|im ims IH]; intros images.
  - simpl. split; [done |]. split; [by destruct (images !! "plot1") |].
    split; [by destruct (images !! "plot2") | intros; reflexivity].
  - assert (plot1_rule im = true → plot2_rule im = false) as Hexcl.
    { unfold plot1_rule, plot2_rule. intros Hr. apply andb_true_iff in Hr as [_ Hc].
      apply bool_decide_eq_true in Hc. rewrite Hc. apply andb_false_r. }
    simpl. rewrite <- !andb_assoc.
    change (bool_decide (19 ≤ anchor_row im)%Z && bool_decide (anchor_col im = 0)%Z)
      with (plot1_rule im).
    change (bool_decide (19 ≤ anchor_row im)%Z && bool_decide (anchor_col im = 11)%Z)
      with (plot2_rule im).
    destruct (plot1_rule im) eqn:R1; [rewrite (Hexcl eq_refl) |];
      [| destruct (plot2_rule im) eqn:R2];
      destruct (images !! "plot1") as [x1|] eqn:H1;
      destruct (images !! "plot2") as [x2|] eqn:H2;
      rewrite ?(bool_decide_eq_true_2 (None = None)) by done;
      rewrite ?(bool_decide_eq_false_2 (Some _ = None)) by done;
      simpl;
      match goal with
      | |- context [scan_images _ ?m] =>
          destruct (IH m) as (Hret & Hp1 & Hp2 & Hother)
      end;
      rewrite ?lookup_insert_eq, ?lookup_insert_ne, ?H1 in Hp1 by done;
      rewrite ?lookup_insert_eq, ?lookup_insert_ne, ?H2 in Hp2 by done;
      (split; [done |]); (split; [done |]); (split; [done |]);
      intros k Hk1 Hk2; (etrans; [apply (Hother k Hk1 Hk2) |]);
      rewrite ?lookup_insert_ne by done; done.
Qed.

Lemma scan_images_app (before : list Image) (rest : list SheetImage)
    (images : gmap string string) :
  scan_images ((Readable <$> before) ++ rest) images =
  scan_images rest (scan_images (Readable <$> before) images).1.
Proof.
  revert images; induction before as [|im before IH]; intros images; [done |].
  simpl. repeat case_match; apply IH.
Qed.

Lemma extract_of_sheet (fs : FileSystem) (excel_path sheet_name : string)
    (workbook : list (string * Sheet)) (sheet : Sheet) :
  fs !! excel_path = Some (Workbook workbook) →
  get_sheet workbook sheet_name = Some sheet →
  extract_try fs excel_path sheet_name ∅ = scan_images (sheet_images sheet) ∅.
Proof.
  intros Hfile Hsheet. unfold extract_try, load_workbook, workbook_getitem.
  by rewrite Hfile, Hsheet.
Qed.

(** C2: for a sheet whose images all have a readable anchor, plot1 is
    the first image of the list with anchor row at least 19 and anchor
    column 0, plot2 the first with anchor row at least 19 and anchor
    column 11; each slot is filled at most once, by that image, and
    every other image is ignored, so the dictionary has no other key. *)
Theorem classification_first_wins (fs : FileSystem) (excel_path sheet_name : string)
    (workbook : list (string * Sheet)) (sheet : Sheet) (ims : list Image) :
  fs !! excel_path = Some (Workbook workbook) →
  get_sheet workbook sheet_name = Some sheet →
  sheet_images sheet = Readable <$> ims →
  ∃ images,
    extract_images_from_sheet fs excel_path sheet_name = Return (images, []) ∧
    images !! "plot1" = ref <$> List.find plot1_rule ims ∧
    images !! "plot2" = ref <$> List.find plot2_rule ims ∧
    (∀ k, k ≠ "plot1" → k ≠ "plot2" → images !! k = None).
Proof.
  intros Hfile Hsheet Hims. unfold extract_images_from_sheet.
  rewrite (extract_of_sheet fs excel_path sheet_name workbook sheet Hfile Hsheet), Hims.
  destruct (scan_images_readable ims ∅) as (Hret & Hp1 & Hp2 & Hother).
  destruct (scan_images (Readable <$> ims) ∅) as [images r]. simpl in *. subst r.
  exists images. rewrite lookup_empty in Hp1, Hp2. repeat split; [done.. |].
  intros k Hk1 Hk2. by rewrite (Hother k Hk1 Hk2), lookup_empty.
Qed.

Lemma classification_first_wins_witness :
  ∃ images,
    extract_images_from_sheet
      {[ "report.xlsx" := Workbook [("S1", mkSheet []
           [Readable (mkImage 5 0 "low"); Readable (mkImage 25 0 "first");
            Readable (mkImage 25 11 "right"); Readable (mkImage 30 0 "second")])] ]}
      "report.xlsx" "S1" = Return (images, []) ∧
    images !! "plot1" = Some "first" ∧
    images !! "plot2" = Some "right".
Proof.
  destruct (classification_first_wins
    {[ "report.xlsx" := Workbook [("S1", mkSheet []
         [Readable (mkImage 5 0 "low"); Readable (mkImage 25 0 "first");
          Readable (mkImage 25 11 "right"); Readable (mkImage 30 0 "second")])] ]}
    "report.xlsx" "S1"
    [("S1", mkSheet []
         [Readable (mkImage 5 0 "low"); Readable (mkImage 25 0 "first");
          Readable (mkImage 25 11 "right"); Readable (mkImage 30 0 "second")])]
    (mkSheet []
         [Readable (mkImage 5 0 "low"); Readable (mkImage 25 0 "first");
          Readable (mkImage 25 11 "right"); Readable (mkImage 30 0 "second")])
    [mkImage 5 0 "low"; mkImage 25 0 "first"; mkImage 25 11 "right"; mkImage 30 0 "second"])
    as (images & Hrun & Hp1 & Hp2 & _).
  - reflexivity.
  - reflexivity.
  - reflexivity.
  - exists images. split; [exact Hrun |]. split; [exact Hp1 | exact Hp2].
Defined.

(** C8: when the image list of the sheet cannot be reached at all (no
    file at the path, a file the library rejects, or a workbook
    without that sheet) the call returns the empty dictionary, one
    notice is put on the page with [st.error], and no exception
    reaches the caller. *)
Theorem unreadable_sheet_gives_empty (fs : FileSystem) (excel_path sheet_name : string) :
  (∀ workbook, fs !! excel_path = Some (Workbook workbook) →
               get_sheet workbook sheet_name = None) →
  ∃ e, extract_images_from_sheet fs excel_path sheet_name =
       Return (∅, [StError ("Failed to extract images from Excel: " +:+ exn_str e)]).
Proof.
  intros Hunreached.
  unfold extract_images_from_sheet, extract_try, load_workbook, workbook_getitem.
  destruct (fs !! excel_path) as [[workbook | e] |]; [| by exists e | by eexists].
  rewrite (Hunreached workbook eq_refl). by eexists.
Qed.

Lemma unreadable_sheet_gives_empty_witness :
  ∃ e, extract_images_from_sheet
         {[ "report.xlsx" := Workbook [("S1", mkSheet [] [Readable (mkImage 25 0 "a")])] ]}
         "report.xlsx" "S2"
       = Return (∅, [StError ("Failed to extract images from Excel: " +:+ exn_str e)]).
Proof.
  apply (unreadable_sheet_gives_empty
    {[ "report.xlsx" := Workbook [("S1", mkSheet [] [Readable (mkImage 25 0 "a")])] ]}
    "report.xlsx" "S2").
  intros workbook Hfile. rewrite lookup_singleton_eq in Hfile.
  injection Hfile as <-. reflexivity.
Defined.

(** C10: the call returns for every file system, path and sheet name;
    when an entry of the image list raises, the exception is handled,
    a notice is shown, and the dictionary returned holds the slots
    that the entries before it filled (plot1 alone, for instance). *)
Theorem extract_never_raises (fs : FileSystem) (excel_path sheet_name : string) :
  (∃ images notices,
     extract_images_from_sheet fs excel_path sheet_name = Return (images, notices)) ∧
  (∀ workbook sheet before e after,
     fs !! excel_path = Some (Workbook workbook) →
     get_sheet workbook sheet_name = Some sheet →
     sheet_images sheet = (Readable <$> before) ++ Unreadable e :: after →
     ∃ images,
       extract_images_from_sheet fs excel_path sheet_name =
         Return (images, [StError ("Failed to extract images from Excel: " +:+ exn_str e)]) ∧
       images !! "plot1" = ref <$> List.find plot1_rule before ∧
       images !! "plot2" = ref <$> List.find plot2_rule before ∧
       (∀ k, k ≠ "plot1" → k ≠ "plot2" → images !! k = None)).
Proof.
  split.
  - unfold extract_images_from_sheet.
    destruct (extract_try fs excel_path sheet_name ∅) as [images [[] | e]]; eauto.
  - intros workbook sheet before e after Hfile Hsheet Hims.
    unfold extract_images_from_sheet.
    rewrite (extract_of_sheet fs excel_path sheet_name workbook sheet Hfile Hsheet), Hims.
    rewrite scan_images_app.
    destruct (scan_images_readable before ∅) as (_ & Hp1 & Hp2 & Hother).
    destruct (scan_images (Readable <$> before) ∅) as [images r]. simpl in *.
    exists images. rewrite lookup_empty in Hp1, Hp2. repeat split; [done.. |].
    intros k Hk1 Hk2. by rewrite (Hother k Hk1 Hk2), lookup_empty.
Qed.

Lemma extract_never_raises_witness :
  ∃ images,
    extract_images_from_sheet
      {[ "report.xlsx" := Workbook [("S1", mkSheet []
           [Readable (mkImage 25 0 "first");
            Unreadable (AttributeError "'AbsoluteAnchor' object has no attribute '_from'");
            Readable (mkImage 25 11 "right")])] ]}
      "report.xlsx" "S1"
    = Return (images, [StError
        "Failed to extract images from Excel: 'AbsoluteAnchor' object has no attribute '_from'"]) ∧
    images !! "plot1" = Some "first" ∧
    images !! "plot2" = None.
Proof.
  destruct (proj2 (extract_never_raises
    {[ "report.xlsx" := Workbook [("S1", mkSheet []
         [Readable (mkImage 25 0 "first");
          Unreadable (AttributeError "'AbsoluteAnchor' object has no attribute '_from'");
          Readable (mkImage 25 11 "right")])] ]}
    "report.xlsx" "S1")
    [("S1", mkSheet []
         [Readable (mkImage 25 0 "first");
          Unreadable (AttributeError "'AbsoluteAnchor' object has no attribute '_from'");
          Readable (mkImage 25 11 "right")])]
    (mkSheet []
         [Readable (mkImage 25 0 "first");
          Unreadable (AttributeError "'AbsoluteAnchor' object has no attribute '_from'");
          Readable (mkImage 25 11 "right")])
    [mkImage 25 0 "first"]
    (AttributeError "'AbsoluteAnchor' object has no attribute '_from'")
    [Readable (mkImage 25 11 "right")])
    as (images & Hrun & Hp1 & Hp2 & _).
  - reflexivity.
  - reflexivity.
  - reflexivity.
  - exists images. split; [exact Hrun |]. split; [exact Hp1 | exact Hp2].
Defined.

(** ** Loading *)

Lemma get_sheet_is_Some (sheets : list (string * Sheet)) (name : string) :
  name ∈ sheets.*1 ↔ is_Some (get_sheet sheets name).
Proof.
  induction sheets as [|[n sh] sheets IH]; simpl.
  - split; [intros Hin; by apply elem_of_nil in Hin | by intros [? ?]].
  - rewrite elem_of_cons. destruct (decide (n = name)) as [->|Hne].
    + split; [by eexists | by left].
    + rewrite <- IH. split; [intros [?|?]; [congruence | done] | by right].
Qed.

Lemma sector_dict_lookup (sheets : list (string * Sheet)) (names : list string)
    (acc : gmap string (list (list Cell))) :
  (∀ n, n ∈ names → is_Some (get_sheet sheets n)) →
  ∃ d, sector_dict sheets names acc = Return d ∧
       ∀ name, d !! name = if decide (name ∈ names)
                           then cells <$> get_sheet sheets name
                           else acc !! name.
Proof.
  revert acc; induction names as [|n names IH]; intros acc Hsheets.
  - exists acc. split; [done |]. intros name. case_decide as Hin; [| done].
    by apply elem_of_nil in Hin.
  - destruct (Hsheets n) as [sh Hsh]; [by left |].
    destruct (IH (<[n := cells sh]> acc)) as (d & Hd & Hlook).
    { intros n' Hin. apply Hsheets. by right. }
    exists d. simpl. unfold parse_raw. rewrite Hsh. split; [done |].
    intros name. rewrite (Hlook name).
    destruct (decide (name ∈ names)) as [Hin | Hnotin].
    + rewrite decide_True; [done | by right].
    + destruct (decide (name = n)) as [->|Hne].
      * rewrite decide_True by (by left). by rewrite lookup_insert_eq, Hsh.
      * rewrite decide_False by (intros [?|?]%elem_of_cons; done).
        by rewrite lookup_insert_ne.
Qed.

(** C7: without a file at the path [load_data] reports the
    missing-file error; with a workbook that has no sheet named
    Introduction it reports another, different error; both times it
    returns (None, None), on which the script stops. With the sheet
    there, every other sheet of the workbook, and nothing else, is an
    entry of the dictionary, with the grid of the sheet as it is (no
    row taken as header). *)
Theorem load_data_requires_introduction (fs : FileSystem) (excel_path : string) :
  (fs !! excel_path = None →
     load_data fs excel_path =
       Return ((None, None), [StError (missing_file_message excel_path)])) ∧
  (∀ xls, fs !! excel_path = Some (Workbook xls) →
     get_sheet xls "Introduction" = None →
     load_data fs excel_path = Return ((None, None), [StError missing_sheet_message])) ∧
  missing_sheet_message ≠ missing_file_message excel_path ∧
  stops_after_load (None, None) = Return true ∧
  (∀ xls intro, fs !! excel_path = Some (Workbook xls) →
     get_sheet xls "Introduction" = Some intro →
     ∃ sector_data,
       load_data fs excel_path =
         Return ((Some sector_data, Some (header0 (cells intro))), []) ∧
       ∀ name, sector_data !! name =
               if decide (name = "Introduction") then None
               else cells <$> get_sheet xls name).
Proof.
  split; [| split; [| split; [| split]]].
  - intros Hfile. unfold load_data. by rewrite Hfile.
  - intros xls Hfile Hintro. unfold load_data, parse_header0. by rewrite Hfile, Hintro.
  - unfold missing_sheet_message, missing_file_message. simpl. discriminate.
  - reflexivity.
  - intros xls intro Hfile Hintro. unfold load_data, parse_header0. rewrite Hfile, Hintro.
    destruct (sector_dict_lookup xls (filter (λ name, name ≠ "Introduction") xls.*1) ∅)
      as (d & Hd & Hlook).
    { intros n Hin. apply list_elem_of_filter in Hin as [_ Hin]. by apply get_sheet_is_Some. }
    exists d. rewrite Hd. split; [done |]. intros name. rewrite (Hlook name).
    destruct (decide (name = "Introduction")) as [->|Hne].
    + rewrite decide_False; [by rewrite lookup_empty |].
      intros Hin. by apply list_elem_of_filter in Hin as [Hne _].
    + destruct (get_sheet xls name) as [sh|] eqn:Hsh.
      * rewrite decide_True; [done |]. apply list_elem_of_filter. split; [done |].
        apply get_sheet_is_Some. by rewrite Hsh.
      * by case_decide.
Qed.

Lemma load_data_requires_introduction_witness :
  ∃ sector_data,
    load_data
      {[ "report.xlsx" := Workbook
           [("Introduction", mkSheet [[CText "Congested Sector ID"]; [CText "S1"]] []);
            ("S1", mkSheet [[CText "Report"]; [CText "ID"]; [CNum 7]] [])] ]}
      "report.xlsx"
    = Return ((Some sector_data,
               Some (mkSummary [CText "Congested Sector ID"] [[CText "S1"]])), []) ∧
    sector_data !! "S1" = Some [[CText "Report"]; [CText "ID"]; [CNum 7]] ∧
    sector_data !! "Introduction" = None.
Proof.
  destruct (proj2 (proj2 (proj2 (proj2 (load_data_requires_introduction
    {[ "report.xlsx" := Workbook
         [("Introduction", mkSheet [[CText "Congested Sector ID"]; [CText "S1"]] []);
          ("S1", mkSheet [[CText "Report"]; [CText "ID"]; [CNum 7]] [])] ]}
    "report.xlsx"))))
    [("Introduction", mkSheet [[CText "Congested Sector ID"]; [CText "S1"]] []);
     ("S1", mkSheet [[CText "Report"]; [CText "ID"]; [CNum 7]] [])]
    (mkSheet [[CText "Congested Sector ID"]; [CText "S1"]] []))
    as (sector_data & Hrun & Hlook).
  - reflexivity.
  - reflexivity.
  - exists sector_data. split; [exact Hrun |]. split.
    + exact (Hlook "S1").
    + exact (Hlook "Introduction").
Defined.

(** * Further properties of the code *)

(** ** The end of a table *)

Lemma find_table_end_past (df : Grid) (start : nat) :
  length df ≤ start → find_table_end df start = length df.
Proof.
  intros Hpast. unfold find_table_end.
  by replace (length df - start) with 0 by lia.
Qed.

Lemma find_table_end_le (df : Grid) (start : nat) :
  find_table_end df start ≤ length df.
Proof.
  destruct (decide (start ≤ length df)) as [Hle | Hgt].
  - by destruct (find_table_end_spec df start Hle) as ([_ ?] & _).
  - rewrite find_table_end_past; lia.
Qed.

Lemma find_table_end_at_null (df : Grid) (start : nat) (row : Row) :
  df !! start = Some row → all_null row = true → find_table_end df start = start.
Proof.
  intros Hrow Hnull.
  assert (start ≤ length df) as Hle by (apply lookup_lt_Some in Hrow; lia).
  destruct (find_table_end_spec df start Hle) as ([Hlo _] & Hbefore & _).
  destruct (decide (find_table_end df start = start)) as [| Hne]; [done |].
  rewrite (Hbefore start row) in Hnull; [done | lia | done].
Qed.

(** X1: the search for the end of a table stays within the sheet: the
    result is never past the number of rows, a search that starts at
    or past the last row gives the number of rows, and searching again
    from the end that was found gives that end again. *)
Theorem find_table_end_bounds (df : Grid) (start : nat) :
  find_table_end df start ≤ length df ∧
  (length df ≤ start → find_table_end df start = length df) ∧
  find_table_end df (find_table_end df start) = find_table_end df start.
Proof.
  split; [apply find_table_end_le |]. split; [apply find_table_end_past |].
  destruct (decide (start ≤ length df)) as [Hle | Hgt].
  - destruct (find_table_end_spec df start Hle) as (Hrange & _ & Hstop).
    destruct (decide (find_table_end df start < length df)) as [Hlt | Hge].
    + destruct (Hstop Hlt) as (row & Hrow & Hnull). by eapply find_table_end_at_null.
    + assert (find_table_end df start = length df) as -> by lia.
      by apply find_table_end_past.
  - rewrite (find_table_end_past df start) by lia. by apply find_table_end_past.
Qed.

Lemma find_table_end_bounds_witness :
  find_table_end [[CText "a"]; [CNull]; [CText "b"]] 7 = 3.
Proof.
  apply (proj1 (proj2 (find_table_end_bounds [[CText "a"]; [CNull]; [CText "b"]] 7))).
  simpl. lia.
Defined.

(** ** What a call of [display_table_from_sheet] can do *)

Lemma select_length_eq {A B : Type} (mask : list bool) (l1 : list A) (l2 : list B) :
  length l1 = length l2 → length (select mask l1) = length (select mask l2).
Proof.
  revert l1 l2; induction mask as [|b mask IH]; intros [|x l1] [|y l2] Hlen;
    simplify_eq/=; try done.
  destruct b; simpl; by rewrite (IH l1 l2).
Qed.

Lemma select_none {A : Type} (l : list A) (js : list nat) :
  select ((λ _, false) <$> js) l = [].
Proof.
  revert l; induction js as [|j js IH]; intros [|x l]; simpl; try done.
Qed.

Section DisplayFacts.
Context `{Pandas}.

Lemma find_table_start_lt (grid : Grid) (T : string) (s : nat) :
  find_table_start grid T = Some s → s < length grid.
Proof.
  intros Hs. apply find_table_start_Some in Hs as [(row & Hrow & _) _].
  by eapply lookup_lt_Some.
Qed.

Lemma display_not_found (grid : Grid) (T : string) :
  find_table_start grid T = None →
  display_table_from_sheet grid T = Return [not_found_notice T].
Proof.
  intros Hnone. unfold display_table_from_sheet, not_found_notice. rewrite Hnone.
  by destruct (str_in "Forbidden" T).
Qed.

Lemma display_last_row (grid : Grid) (T : string) (s : nat) :
  find_table_start grid T = Some s → S s = length grid →
  display_table_from_sheet grid T =
    Raise (IndexError "single positional indexer is out-of-bounds").
Proof.
  intros Hs Hlast. unfold display_table_from_sheet. rewrite Hs.
  by rewrite (proj2 (lookup_ge_None grid (s + 1))) by lia.
Qed.

Lemma display_shown (grid : Grid) (T : string) (s : nat) :
  find_table_start grid T = Some s → S s < length grid →
  ∃ header,
    grid !! (s + 1) = Some header ∧
    display_table_from_sheet grid T = st_dataframe (table_frame grid s header).
Proof.
  intros Hs Hlt. destruct (lookup_lt_is_Some_2 grid (s + 1)) as [header Hh]; [lia |].
  exists header. split; [done |]. by apply display_found.
Qed.

(** The four outcomes of the call and when each occurs. *)
Lemma display_cases (grid : Grid) (T : string) :
  (find_table_start grid T = None ∧
   display_table_from_sheet grid T = Return [not_found_notice T]) ∨
  (∃ s, find_table_start grid T = Some s ∧ S s = length grid ∧
        display_table_from_sheet grid T =
          Raise (IndexError "single positional indexer is out-of-bounds")) ∨
  (∃ s header, find_table_start grid T = Some s ∧ grid !! (s + 1) = Some header ∧
        ¬ NoDup (columns (table_frame grid s header)) ∧
        display_table_from_sheet grid T =
          Raise (ValueError "Duplicate column names found")) ∨
  (∃ s header, find_table_start grid T = Some s ∧ grid !! (s + 1) = Some header ∧
        NoDup (columns (table_frame grid s header)) ∧
        display_table_from_sheet grid T = Return [StDataframe (table_frame grid s header)]).
Proof.
  destruct (find_table_start grid T) as [s|] eqn:Hs.
  - pose proof (find_table_start_lt grid T s Hs) as Hlt. right.
    destruct (decide (S s = length grid)) as [Hlast | Hnot].
    + left. exists s. by rewrite (display_last_row grid T s Hs Hlast).
    + right. destruct (display_shown grid T s Hs) as (header & Hh & Hshow); [lia |].
      rewrite Hshow. unfold st_dataframe.
      destruct (decide (NoDup (columns (table_frame grid s header)))) as [Hnd | Hdup].
      * right. by exists s, header.
      * left. by exists s, header.
  - left. split; [done | by apply display_not_found].
Qed.

Lemma not_found_notice_not_frame (T : string) (t : DataFrame) :
  not_found_notice T ≠ StDataframe t.
Proof. unfold not_found_notice. by destruct (str_in "Forbidden" T). Qed.

(** X2: a call ends in exactly one of four ways. It shows one notice
    when no row matches the title: an [st.info] when the title
    contains "Forbidden", else an [st.warning]. It raises IndexError
    when the first matching row is the last row of the sheet. It
    raises ValueError when two columns of the trimmed table have the
    same name. It raises nothing else, and in every other case it
    shows one table, the trimmed table, whose column names are
    pairwise different. *)
Theorem display_outcomes (grid : Grid) (T : string) :
  (display_table_from_sheet grid T = Return [not_found_notice T] ↔
     find_table_start grid T = None) ∧
  (∀ e, display_table_from_sheet grid T = Raise e ↔
     (e = IndexError "single positional indexer is out-of-bounds" ∧
      ∃ s, find_table_start grid T = Some s ∧ S s = length grid) ∨
     (e = ValueError "Duplicate column names found" ∧
      ∃ s header, find_table_start grid T = Some s ∧ grid !! (s + 1) = Some header ∧
                  ¬ NoDup (columns (table_frame grid s header)))) ∧
  (∀ t, display_table_from_sheet grid T = Return [StDataframe t] ↔
     ∃ s header, find_table_start grid T = Some s ∧ grid !! (s + 1) = Some header ∧
                 t = table_frame grid s header ∧ NoDup (columns t)).
Proof.
  destruct (display_cases grid T) as
    [[Hs Hd] | [(s & Hs & Hlen & Hd) |
     [(s & header & Hs & Hh & Hdup & Hd) | (s & header & Hs & Hh & Hnd & Hd)]]];
    rewrite Hd, Hs.
  - split; [done |]. split.
    + intros e. split; [done |]. by intros [(_ & s & ? & _) | (_ & s & ? & ? & _)].
    + intros t. split; [| by intros (s & ? & ? & _)].
      intros [= Ht]. by apply not_found_notice_not_frame in Ht.
  - split; [done |]. split.
    + intros e. split; [intros [= <-]; left; eauto |].
      intros [[-> _] | (_ & s' & header & [= <-] & Hh & _)]; [done |].
      apply lookup_lt_Some in Hh. lia.
    + intros t. split; [done |]. intros (s' & header & [= <-] & Hh & _).
      apply lookup_lt_Some in Hh. lia.
  - split; [done |]. split.
    + intros e. split; [intros [= <-]; right; split; [done |]; by exists s, header |].
      intros [(_ & s' & [= <-] & Hlen) | [-> _]]; [| done].
      apply lookup_lt_Some in Hh. lia.
    + intros t. split; [done |]. intros (s' & header' & [= <-] & Hh' & -> & Hnd).
      rewrite Hh in Hh'. injection Hh' as <-. done.
  - split; [| split].
    + split; [| done]. intros [= Ht]. symmetry in Ht.
      by apply not_found_notice_not_frame in Ht.
    + intros e. split; [done |].
      intros [(_ & s' & [= <-] & Hlen) | (_ & s' & header' & [= <-] & Hh' & Hdup)].
      * apply lookup_lt_Some in Hh. lia.
      * rewrite Hh in Hh'. injection Hh' as <-. done.
    + intros t. split.
      * intros [= <-]. by exists s, header.
      * intros (s' & header' & [= <-] & Hh' & -> & _).
        rewrite Hh in Hh'. by injection Hh' as <-.
Qed.

(** X3: a title whose header row is the last row of the sheet, or is
    followed by an all-empty row, has no data row; the table shown
    then has no row and no column either, since a column without a
    row counts as empty. *)
Theorem header_without_data (grid : Grid) (T : string) (s : nat) (header : Row) :
  find_table_start grid T = Some s →
  grid !! (s + 1) = Some header →
  (∀ row, grid !! (s + 2) = Some row → all_null row = true) →
  display_table_from_sheet grid T = Return [StDataframe (mkFrame [] [])].
Proof.
  intros Hs Hh Hnext. rewrite (display_found grid T s header Hs Hh).
  assert (find_table_end grid (s + 2) = s + 2) as ->.
  { destruct (grid !! (s + 2)) as [row|] eqn:Hrow.
    - eapply find_table_end_at_null; [done | by apply Hnext].
    - apply lookup_ge_None in Hrow. apply lookup_lt_Some in Hh.
      rewrite find_table_end_past; lia. }
  unfold iloc_slice, dropna_cols, dropna_rows. rewrite Nat.sub_diag. simpl.
  by rewrite select_none.
Qed.

(** X4: for a rectangular sheet the table shown is rectangular: every row
    has one cell per column name. It has at most as many columns as
    the header row has cells, and its rows fit between the header row
    and the end of the sheet. *)
Theorem shown_frame_rectangular (grid : Grid) (T : string) (t : DataFrame) :
  rectangular grid →
  display_table_from_sheet grid T = Return [StDataframe t] →
  ∃ s header,
    find_table_start grid T = Some s ∧ grid !! (s + 1) = Some header ∧
    (∀ r, r ∈ rows t → length r = length (columns t)) ∧
    length (columns t) ≤ length header ∧
    length (rows t) + (s + 2) ≤ length grid.
Proof.
  intros Hrect Hshow.
  destruct (display_cases grid T) as
    [[_ Hd] | [(s & _ & _ & Hd) |
     [(s & header & _ & _ & _ & Hd) | (s & header & Hs & Hh & _ & Hd)]]].
  - rewrite Hd in Hshow. injection Hshow as Hshow.
    by apply not_found_notice_not_frame in Hshow.
  - by rewrite Hd in Hshow.
  - by rewrite Hd in Hshow.
  - rewrite Hd in Hshow. injection Hshow as <-. exists s, header.
    split; [done |]. split; [done |]. unfold table_frame.
    set (names := dedup_columns (astype_str header)).
    set (body := iloc_slice grid (s + 2) (find_table_end grid (s + 2))).
    assert (length names = length header) as Hnames
      by (unfold names; by rewrite dedup_columns_length, astype_str_length).
    assert (∀ r, r ∈ body → length r = length names) as Hbody.
    { intros r Hin. rewrite Hnames. apply Hrect; [| by eapply list_elem_of_lookup_2].
      eapply elem_of_sublist; [done |]. unfold body, iloc_slice.
      etrans; [apply sublist_take | apply sublist_drop]. }
    destruct (trim_frame names body Hbody) as (-> & _ & _). simpl. split; [| split].
    + intros r' Hin. apply list_elem_of_fmap in Hin as (r & -> & Hin).
      apply list_elem_of_filter in Hin as [_ Hin]. apply select_length_eq. by apply Hbody.
    + rewrite <- Hnames. apply sublist_length, select_sublist.
    + rewrite length_fmap.
      pose proof (sublist_length _ _ (sublist_filter (λ r : Row, all_null r = false) body)).
      pose proof (find_table_end_le grid (s + 2)).
      pose proof (lookup_lt_Some _ _ _ Hh).
      assert (length body ≤ find_table_end grid (s + 2) - (s + 2)); [| lia].
      unfold body, iloc_slice. rewrite length_take. lia.
Qed.

End DisplayFacts.

Lemma header_without_data_witness :
  display_table_from_sheet
    [[CText "Report"; CNull]; [CText "ID"; CText "Value"]; [CNull; CNull];
     [CText "x1"; CNum 10]] "Report"
  = Return [StDataframe (mkFrame [] [])].
Proof.
  apply (header_without_data
    [[CText "Report"; CNull]; [CText "ID"; CText "Value"]; [CNull; CNull];
     [CText "x1"; CNum 10]] "Report" 0 [CText "ID"; CText "Value"]).
  - vm_compute. reflexivity.
  - reflexivity.
  - intros row Hrow. simpl in Hrow. injection Hrow as <-. reflexivity.
Defined.

Lemma shown_frame_rectangular_witness :
  ∃ (s : nat) (header : Row),
    find_table_start
      [[CText "Report"; CNull; CNull]; [CText "ID"; CText "Extra"; CText "Value"];
       [CText "x1"; CNull; CNum 10]; [CText "x2"; CNull; CNum 20]] "Report" = Some s ∧
    length (columns (mkFrame ["ID"; "Value"] [[CText "x1"; CNum 10]; [CText "x2"; CNum 20]]))
      ≤ length header.
Proof.
  destruct (shown_frame_rectangular
    [[CText "Report"; CNull; CNull]; [CText "ID"; CText "Extra"; CText "Value"];
     [CText "x1"; CNull; CNum 10]; [CText "x2"; CNull; CNum 20]] "Report"
    (mkFrame ["ID"; "Value"] [[CText "x1"; CNum 10]; [CText "x2"; CNum 20]]))
    as (s & header & Hs & _ & _ & Hcols & _).
  - intros r1 r2 H1 H2.
    repeat (apply elem_of_cons in H1 as [->|H1]); try (by apply elem_of_nil in H1);
      repeat (apply elem_of_cons in H2 as [->|H2]); try (by apply elem_of_nil in H2);
      reflexivity.
  - vm_compute. reflexivity.
  - exists s, header. split; [exact Hs | exact Hcols].
Defined.

(** ** Titles that are parts of titles *)

Lemma str_app_assoc (a b c : string) : (a +:+ b) +:+ c = a +:+ b +:+ c.
Proof.
  induction a as [|x a IH]; [done |].
  change (String x ((a +:+ b) +:+ c) = String x (a +:+ b +:+ c)). by rewrite IH.
Qed.

Lemma str_app_nil_r (a : string) : a +:+ "" = a.
Proof.
  induction a as [|x a IH]; [done |].
  change (String x (a +:+ "") = String x a). by rewrite IH.
Qed.

Lemma str_in_trans (a b c : string) :
  str_in a b = true → str_in b c = true → str_in a c = true.
Proof.
  rewrite !str_in_spec. intros (u & v & ->) (x & y & ->).
  exists (x +:+ u), (v +:+ y). by rewrite !str_app_assoc.
Qed.

Section TitleFacts.
Context `{Pandas}.

(** X5: a title that is a part of another title is found whenever the
    longer one is, on the same row or on a row above it. The empty
    title is found on the first row of every sheet that has a row. *)
Theorem substring_title_found (grid : Grid) (T : string) :
  (∀ T' s, str_in T' T = true → find_table_start grid T = Some s →
     ∃ s', find_table_start grid T' = Some s' ∧ s' ≤ s) ∧
  (∀ row rest, grid = row :: rest → find_table_start grid "" = Some 0).
Proof.
  split.
  - intros T' s Hpart Hs.
    apply find_table_start_Some in Hs as [(row & Hrow & Hin) _].
    pose proof (str_in_trans T' T (to_string row) Hpart Hin) as Hin'.
    destruct (find_table_start grid T') as [s'|] eqn:Hs'.
    + exists s'. split; [done |].
      apply find_table_start_Some in Hs' as [_ Hfirst].
      destruct (decide (s' ≤ s)) as [| Hgt]; [done |].
      rewrite (Hfirst s row) in Hin'; [done | lia | done].
    + rewrite find_table_start_None in Hs'.
      rewrite (Hs' row) in Hin'; [done | by eapply list_elem_of_lookup_2].
  - intros row rest ->. unfold find_table_start. simpl.
    by destruct (to_string row).
Qed.

End TitleFacts.

Lemma substring_title_found_witness :
  ∃ s', find_table_start
          [[CText "Report of sectors"]; [CText "Recommendation Report for Sector"]]
          "Report" = Some s' ∧ s' ≤ 1.
Proof.
  apply (proj1 (substring_title_found
    [[CText "Report of sectors"]; [CText "Recommendation Report for Sector"]]
    "Recommendation Report for Sector") "Report" 1).
  - vm_compute. reflexivity.
  - vm_compute. reflexivity.
Defined.

(** ** More on column names *)

Lemma occurrences_app (name : string) (l1 l2 : list string) :
  occurrences name (l1 ++ l2) = occurrences name l1 + occurrences name l2.
Proof. unfold occurrences. by rewrite filter_app, length_app. Qed.

Lemma occurrences_zero (name : string) (l : list string) :
  occurrences name l = 0 ↔ name ∉ l.
Proof.
  unfold occurrences. rewrite length_zero_iff_nil. split.
  - intros Hnil Hin. assert (name ∈ filter (λ c, c = name) l) as Hf
      by (by apply list_elem_of_filter).
    rewrite Hnil in Hf. by apply elem_of_nil in Hf.
  - intros Hnotin. destruct (filter (λ c, c = name) l) as [|c f] eqn:Hf; [done |].
    assert (c ∈ filter (λ c, c = name) l) as Hc by (rewrite Hf; by left).
    apply list_elem_of_filter in Hc as [-> Hc]. done.
Qed.

Lemma occurrences_take_lt (name : string) (l : list string) (i j : nat) :
  i < j → l !! i = Some name →
  occurrences name (take i l) < occurrences name (take j l).
Proof.
  intros Hlt Hi.
  assert (take j l !! i = Some name) as Hij by (by rewrite lookup_take_lt).
  rewrite <- (take_drop_middle (take j l) i name Hij).
  rewrite take_take, Nat.min_l by lia.
  rewrite occurrences_app. unfold occurrences at 3.
  rewrite filter_cons_True by done. simpl. lia.
Qed.

Lemma dedup_columns_lookup (header : list string) (i : nat) (name : string) :
  header !! i = Some name →
  dedup_columns header !! i = Some (renamed name (occurrences name (take i header))).
Proof.
  intros Hi. apply (dedup_loop_lookup header [] ∅); [| done].
  intros name'. by rewrite lookup_empty.
Qed.

(** X6: the names of the header are left as they are exactly when no name
    occurs twice. *)
Theorem dedup_columns_fixed (header : list string) :
  dedup_columns header = header ↔ NoDup header.
Proof.
  split.
  - intros Hfix. apply NoDup_alt. intros i j name Hi Hj.
    assert (∀ a b, a < b → header !! a = Some name → header !! b = Some name → False)
      as Hord.
    { intros a b Hab Ha Hb.
      pose proof (occurrences_take_lt name header a b Hab Ha) as Hocc.
      pose proof (dedup_columns_lookup header b name Hb) as Hout.
      rewrite Hfix, Hb in Hout. injection Hout as Hout.
      destruct (occurrences name (take b header)) as [|k]; [lia |]. simpl in Hout.
      rewrite <- (str_app_nil_r name) in Hout at 1.
      by apply (inj (String.app name)) in Hout. }
    destruct (Nat.lt_trichotomy i j) as [Hlt | [-> | Hgt]]; [| done |].
    + by destruct (Hord i j).
    + by destruct (Hord j i).
  - intros Hnd. apply list_eq. intros i.
    destruct (header !! i) as [name|] eqn:Hi.
    + rewrite (dedup_columns_lookup header i name Hi).
      assert (occurrences name (take i header) = 0) as ->; [| done].
      apply occurrences_zero. intros Hin.
      apply list_elem_of_lookup in Hin as [j Hj].
      apply lookup_take_Some in Hj as [Hj Hlt].
      pose proof (NoDup_lookup header i j name Hnd Hi Hj). lia.
    + apply lookup_ge_None. rewrite dedup_columns_length. by apply lookup_ge_None.
Qed.

Lemma str_in_cons (t : string) (c : ascii) (s : string) :
  str_in t (String c s) = starts_with t (String c s) || str_in t s.
Proof. done. Qed.

Lemma pretty_N_char_not_underscore (x : N) : pretty_N_char x ≠ "_"%char.
Proof. unfold pretty_N_char. by repeat case_match. Qed.

Lemma pretty_N_go_no_underscore (x : N) (s : string) :
  str_in "_" s = false → str_in "_" (pretty_N_go x s) = false.
Proof.
  revert s. induction (N.lt_wf_0 x) as [x _ IH]. intros s Hs.
  destruct (decide (0 < x)%N) as [Hpos | Hzero].
  - rewrite pretty_N_go_step by done. apply IH; [by apply N.div_lt |].
    rewrite str_in_cons, Hs, orb_false_r. simpl.
    pose proof (pretty_N_char_not_underscore (x `mod` 10)) as Hne.
    by destruct (decide ("_"%char = pretty_N_char (x `mod` 10))).
  - assert (x = 0%N) as -> by lia. by rewrite pretty_N_go_0.
Qed.

Lemma pretty_nat_no_underscore (k : nat) : str_in "_" (pretty k) = false.
Proof.
  unfold pretty, pretty_nat, pretty, pretty_N.
  destruct (decide (N.of_nat k = 0%N)); [done |]. by apply pretty_N_go_no_underscore.
Qed.

(** Two names with an underscore before a suffix free of underscores
    are equal only when both parts are. *)
Lemma underscore_split (s1 d1 s2 d2 : string) :
  str_in "_" d1 = false → str_in "_" d2 = false →
  s1 +:+ "_" +:+ d1 = s2 +:+ "_" +:+ d2 → s1 = s2 ∧ d1 = d2.
Proof.
  intros Hd1 Hd2. revert s2; induction s1 as [|c s1 IH]; intros [|c' s2] Heq.
  - by injection Heq.
  - injection Heq as Hc Heq. exfalso.
    assert (str_in "_" d1 = true) as Hin; [| by rewrite Hin in Hd1].
    apply str_in_spec. by exists s2, d2.
  - injection Heq as Hc Heq. exfalso.
    assert (str_in "_" d2 = true) as Hin; [| by rewrite Hin in Hd2].
    apply str_in_spec. by exists s1, d1.
  - injection Heq as -> Heq. by destruct (IH s2 Heq) as [-> ->].
Qed.

(** X7: the names that the loop hands on are pairwise different whenever
    no name of the header is another name of the header followed by
    an underscore and a number from 1 on. *)
Theorem dedup_columns_unique (header : list string) :
  (∀ name name' k, name ∈ header → name' ∈ header →
     name ≠ name' +:+ "_" +:+ pretty (S k)) →
  NoDup (dedup_columns header).
Proof.
  intros Hfresh. apply NoDup_alt.
  assert (∀ i j x, i < j → dedup_columns header !! i = Some x →
                   dedup_columns header !! j = Some x → False) as Hord.
  { intros i j x Hlt Hi Hj.
    destruct (lookup_lt_is_Some_2 header i) as [ni Hni].
    { rewrite <- dedup_columns_length. by eapply lookup_lt_Some. }
    destruct (lookup_lt_is_Some_2 header j) as [nj Hnj].
    { rewrite <- dedup_columns_length. by eapply lookup_lt_Some. }
    rewrite (dedup_columns_lookup header i ni Hni) in Hi.
    rewrite (dedup_columns_lookup header j nj Hnj) in Hj.
    injection Hi as Hi. injection Hj as Hj.
    assert (ni ∈ header) as Hini by (by eapply list_elem_of_lookup_2).
    assert (nj ∈ header) as Hinj by (by eapply list_elem_of_lookup_2).
    destruct (occurrences ni (take i header)) as [|ki] eqn:Hki;
      destruct (occurrences nj (take j header)) as [|kj] eqn:Hkj; simpl in Hi, Hj.
    - subst ni nj. pose proof (occurrences_take_lt x header i j Hlt Hni). lia.
    - subst ni. by apply (Hfresh x nj kj).
    - subst nj. by apply (Hfresh x ni ki).
    - rewrite <- Hj in Hi.
      apply underscore_split in Hi as [-> Hk]; [| apply pretty_nat_no_underscore..].
      apply (inj pretty) in Hk.
      pose proof (occurrences_take_lt nj header i j Hlt Hni). lia. }
  intros i j x Hi Hj.
  destruct (Nat.lt_trichotomy i j) as [Hlt | [-> | Hgt]]; [| done |].
  - by destruct (Hord i j x).
  - by destruct (Hord j i x).
Qed.

Lemma dedup_columns_unique_witness :
  NoDup (dedup_columns ["A"; "B"; "A"]).
Proof.
  apply (dedup_columns_unique ["A"; "B"; "A"]).
  intros name name' k Hin Hin'.
  repeat (apply elem_of_cons in Hin as [->|Hin]); try (by apply elem_of_nil in Hin);
    repeat (apply elem_of_cons in Hin' as [->|Hin']); try (by apply elem_of_nil in Hin');
    discriminate.
Defined.

(** ** More on the image loop *)

Lemma scan_images_cons (image : Image) (rest : list SheetImage)
    (images : gmap string string) :
  scan_images (Readable image :: rest) images =
  if bool_decide (images !! "plot1" = None) && plot1_rule image
  then scan_images rest (<["plot1" := ref image]> images)
  else if bool_decide (images !! "plot2" = None) && plot2_rule image
  then scan_images rest (<["plot2" := ref image]> images)
  else scan_images rest images.
Proof. simpl. by rewrite <- !andb_assoc. Qed.

(** The loop never overwrites and never removes an entry of the
    dictionary. *)
Lemma scan_images_keeps (entries : list SheetImage) (images : gmap string string)
    (k v : string) :
  images !! k = Some v → (scan_images entries images).1 !! k = Some v.
Proof.
  revert images; induction entries as [|[image | e] rest IH]; intros images Hk; [done | | done].
  rewrite scan_images_cons.
  destruct (bool_decide (images !! "plot1" = None) && plot1_rule image) eqn:H1.
  - apply andb_true_iff in H1 as [Hfree _]. apply bool_decide_eq_true in Hfree.
    apply IH. rewrite lookup_insert_ne; [done | congruence].
  - destruct (bool_decide (images !! "plot2" = None) && plot2_rule image) eqn:H2; [| by apply IH].
    apply andb_true_iff in H2 as [Hfree _]. apply bool_decide_eq_true in Hfree.
    apply IH. rewrite lookup_insert_ne; [done | congruence].
Qed.

(** Whatever the loop adds to the dictionary is the data of an entry
    of the list that meets the rule of the slot. *)
Lemma scan_images_sound (entries : list SheetImage) (images : gmap string string)
    (k v : string) :
  (scan_images entries images).1 !! k = Some v →
  images !! k = Some v ∨
  ∃ image, Readable image ∈ entries ∧ ref image = v ∧
           ((k = "plot1" ∧ plot1_rule image = true) ∨
            (k = "plot2" ∧ plot2_rule image = true)).
Proof.
  revert images; induction entries as [|[image | e] rest IH]; intros images Hk;
    [by left | | by left].
  assert (∀ slot, (slot = "plot1" ∧ plot1_rule image = true) ∨
                  (slot = "plot2" ∧ plot2_rule image = true) →
            (scan_images rest (<[slot := ref image]> images)).1 !! k = Some v →
            images !! k = Some v ∨
            ∃ image', Readable image' ∈ Readable image :: rest ∧ ref image' = v ∧
              ((k = "plot1" ∧ plot1_rule image' = true) ∨
               (k = "plot2" ∧ plot2_rule image' = true))) as Hins.
  { intros slot Hslot Hk'. destruct (IH _ Hk') as [Hin | (image' & Hin & Hv & Hrule)].
    - destruct (decide (slot = k)) as [<- | Hne].
      + rewrite lookup_insert_eq in Hin. injection Hin as <-.
        right. exists image. split; [by left | done].
      + rewrite lookup_insert_ne in Hin by done. by left.
    - right. exists image'. split; [by right | done]. }
  rewrite scan_images_cons in Hk.
  destruct (bool_decide (images !! "plot1" = None) && plot1_rule image) eqn:H1.
  - apply andb_true_iff in H1 as [_ Hrule]. apply (Hins "plot1"); [by left | done].
  - destruct (bool_decide (images !! "plot2" = None) && plot2_rule image) eqn:H2.
    + apply andb_true_iff in H2 as [_ Hrule]. apply (Hins "plot2"); [by right | done].
    + destruct (IH _ Hk) as [Hin | (image' & Hin & Hv & Hrule)]; [by left |].
      right. exists image'. split; [by right | done].
Qed.

(** X8: whatever the sheet holds, the dictionary returned has no key but
    plot1 and plot2, each image in it is the data of an image of the
    named sheet that is anchored at row 19 or below in column 0 (for
    plot1) or column 11 (for plot2), and at most one notice is put on
    the page. *)
Theorem extract_only_anchored (fs : FileSystem) (excel_path sheet_name : string)
    (images : gmap string string) (notices : list Element) :
  extract_images_from_sheet fs excel_path sheet_name = Return (images, notices) →
  length notices ≤ 1 ∧
  ∀ k v, images !! k = Some v →
    ∃ workbook sheet image,
      fs !! excel_path = Some (Workbook workbook) ∧
      get_sheet workbook sheet_name = Some sheet ∧
      Readable image ∈ sheet_images sheet ∧ ref image = v ∧
      (19 ≤ anchor_row image)%Z ∧
      ((k = "plot1" ∧ anchor_col image = 0%Z) ∨ (k = "plot2" ∧ anchor_col image = 11%Z)).
Proof.
  unfold extract_images_from_sheet, extract_try, load_workbook, workbook_getitem.
  intros Hrun.
  assert (∀ r, (∅ : gmap string string, r) = (images, r) → images = ∅) as Hempty
    by (by intros r [= <-]).
  destruct (fs !! excel_path) as [[workbook | e] |] eqn:Hfile.
  - destruct (get_sheet workbook sheet_name) as [sheet|] eqn:Hsheet.
    + destruct (scan_images (sheet_images sheet) ∅) as [images' r] eqn:Hscan.
      assert (images' = images ∧ length notices ≤ 1) as [-> Hlen].
      { destruct r; injection Hrun as <- <-; simpl; split; (done || lia). }
      split; [done |]. intros k v Hk.
      destruct (scan_images_sound (sheet_images sheet) ∅ k v) as [Hin | (image & Hin & Hv & Hrule)].
      { by rewrite Hscan. }
      { by rewrite lookup_empty in Hin. }
      exists workbook, sheet, image. repeat split; try done.
      * destruct Hrule as [[_ Hr] | [_ Hr]]; apply andb_true_iff in Hr as [Hr _];
          by apply bool_decide_eq_true in Hr.
      * destruct Hrule as [[-> Hr] | [-> Hr]]; apply andb_true_iff in Hr as [_ Hr];
          apply bool_decide_eq_true in Hr; [by left | by right].
    + injection Hrun as <- <-. split; [simpl; lia |]. intros k v Hk.
      by rewrite lookup_empty in Hk.
  - injection Hrun as <- <-. split; [simpl; lia |]. intros k v Hk.
    by rewrite lookup_empty in Hk.
  - injection Hrun as <- <-. split; [simpl; lia |]. intros k v Hk.
    by rewrite lookup_empty in Hk.
Qed.

Lemma extract_only_anchored_witness :
  ∃ (workbook : list (string * Sheet)) (sheet : Sheet) (image : Image),
    ({[ "report.xlsx" := Workbook [("S1", mkSheet []
         [Readable (mkImage 5 0 "low"); Readable (mkImage 25 0 "first");
          Unreadable (AttributeError "'AbsoluteAnchor' object has no attribute '_from'")])] ]}
       : gmap string FileContent) !! "report.xlsx" = Some (Workbook workbook) ∧
    get_sheet workbook "S1" = Some sheet ∧
    Readable image ∈ sheet_images sheet ∧ ref image = "first" ∧
    (19 ≤ anchor_row image)%Z ∧
    (("plot1" = "plot1" ∧ anchor_col image = 0%Z) ∨
     ("plot1" = "plot2" ∧ anchor_col image = 11%Z)).
Proof.
  destruct (extract_only_anchored
    {[ "report.xlsx" := Workbook [("S1", mkSheet []
         [Readable (mkImage 5 0 "low"); Readable (mkImage 25 0 "first");
          Unreadable (AttributeError "'AbsoluteAnchor' object has no attribute '_from'")])] ]}
    "report.xlsx" "S1" {[ "plot1" := "first" ]}
    [StError
      "Failed to extract images from Excel: 'AbsoluteAnchor' object has no attribute '_from'"])
    as [_ Hall].
  - vm_compute. reflexivity.
  - apply (Hall "plot1" "first"). reflexivity.
Defined.

(** X9: a slot that the first images of the list have filled keeps its
    image whatever follows in the list, further images or an entry
    that raises. *)
Theorem filled_slot_kept (before : list Image) (rest : list SheetImage) (k v : string) :
  (scan_images (Readable <$> before) ∅).1 !! k = Some v →
  (scan_images ((Readable <$> before) ++ rest) ∅).1 !! k = Some v.
Proof. intros Hk. rewrite scan_images_app. by apply scan_images_keeps. Qed.

Lemma filled_slot_kept_witness :
  (scan_images ((Readable <$> [mkImage 25 0 "first"])
                ++ [Readable (mkImage 40 0 "second"); Unreadable (KeyError "x")]) ∅).1
    !! "plot1" = Some "first".
Proof.
  apply (filled_slot_kept [mkImage 25 0 "first"]
           [Readable (mkImage 40 0 "second"); Unreadable (KeyError "x")] "plot1" "first").
  reflexivity.
Defined.

(** X10: images that meet neither rule do not matter: the loop gives the
    same dictionary with them and without them, from any dictionary
    to start with. *)
Theorem other_images_ignored (ims : list Image) (images : gmap string string) :
  scan_images (Readable <$> filter (λ im, plot1_rule im || plot2_rule im = true) ims) images
  = scan_images (Readable <$> ims) images.
Proof.
  revert images; induction ims as [|im ims IH]; intros images; [done |].
  rewrite fmap_cons, (scan_images_cons im).
  destruct (plot1_rule im || plot2_rule im) eqn:Hrule.
  - rewrite filter_cons_True by done. rewrite fmap_cons, scan_images_cons.
    by repeat case_match.
  - rewrite filter_cons_False by (by rewrite Hrule).
    apply orb_false_iff in Hrule as [-> ->]. by rewrite !andb_false_r.
Qed.

(** ** More on loading *)

Lemma load_data_loaded (fs : FileSystem) (excel_path : string)
    (xls : list (string * Sheet)) (intro : Sheet) :
  fs !! excel_path = Some (Workbook xls) →
  get_sheet xls "Introduction" = Some intro →
  ∃ sector_data,
    load_data fs excel_path =
      Return ((Some sector_data, Some (header0 (cells intro))), []) ∧
    ∀ name, sector_data !! name =
            if decide (name = "Introduction") then None else cells <$> get_sheet xls name.
Proof.
  intros Hfile Hintro. unfold load_data, parse_header0. rewrite Hfile, Hintro.
  destruct (sector_dict_lookup xls (filter (λ name, name ≠ "Introduction") xls.*1) ∅)
    as (d & Hd & Hlook).
  { intros n Hin. apply list_elem_of_filter in Hin as [_ Hin]. by apply get_sheet_is_Some. }
  exists d. rewrite Hd. split; [done |]. intros name. rewrite (Hlook name).
  destruct (decide (name = "Introduction")) as [->|Hne].
  - rewrite decide_False; [by rewrite lookup_empty |].
    intros Hin. by apply list_elem_of_filter in Hin as [Hne _].
  - destruct (get_sheet xls name) as [sh|] eqn:Hsh.
    + rewrite decide_True; [done |]. apply list_elem_of_filter. split; [done |].
      apply get_sheet_is_Some. by rewrite Hsh.
    + by case_decide.
Qed.

(** Every way [load_data] can end, by the content of the path. *)
Lemma load_data_cases (fs : FileSystem) (excel_path : string) :
  (fs !! excel_path = None ∧
   load_data fs excel_path =
     Return ((None, None), [StError (missing_file_message excel_path)])) ∨
  (∃ e, fs !! excel_path = Some (Corrupt e) ∧ load_data fs excel_path = Raise e) ∨
  (∃ xls, fs !! excel_path = Some (Workbook xls) ∧
          get_sheet xls "Introduction" = None ∧
          load_data fs excel_path = Return ((None, None), [StError missing_sheet_message])) ∨
  (∃ xls intro sector_data,
     fs !! excel_path = Some (Workbook xls) ∧
     get_sheet xls "Introduction" = Some intro ∧
     load_data fs excel_path =
       Return ((Some sector_data, Some (header0 (cells intro))), []) ∧
     ∀ name, sector_data !! name =
             if decide (name = "Introduction") then None else cells <$> get_sheet xls name).
Proof.
  destruct (fs !! excel_path) as [[xls | e] |] eqn:Hfile.
  - destruct (get_sheet xls "Introduction") as [intro|] eqn:Hintro.
    + right; right; right.
      destruct (load_data_loaded fs excel_path xls intro Hfile Hintro) as (d & Hd & Hlook).
      exists xls, intro, d. done.
    + right; right; left. exists xls. split; [done |]. split; [done |].
      unfold load_data, parse_header0. by rewrite Hfile, Hintro.
  - right; left. exists e. split; [done |]. unfold load_data. by rewrite Hfile.
  - left. split; [done |]. unfold load_data. by rewrite Hfile.
Qed.

(** X11: [load_data] lets an exception through only when the file at the
    path cannot be opened as a workbook, and then it is the exception
    of [pd.ExcelFile]; a missing file and a missing Introduction
    sheet are reported and returned as (None, None). *)
Theorem load_data_raises_iff (fs : FileSystem) (excel_path : string) (e : Exn) :
  load_data fs excel_path = Raise e ↔ fs !! excel_path = Some (Corrupt e).
Proof.
  destruct (load_data_cases fs excel_path) as
    [[Hf Hl] | [(e' & Hf & Hl) | [(xls & Hf & _ & Hl) | (xls & intro & d & Hf & _ & Hl & _)]]];
    rewrite Hl, Hf; split; try done.
  - by intros [= ->].
  - by intros [= ->].
Qed.

(** X12: a sector that [load_data] lists is a sheet of the workbook at
    the path, other than Introduction, and its grid is the grid of
    that sheet; [extract_images_from_sheet] with the same path and
    the sector as sheet name reaches the image list of that sheet,
    and shows no notice when every anchor of the list can be read. *)
Theorem loaded_sector_has_images (fs : FileSystem) (excel_path : string)
    (sector_data : gmap string (list (list Cell))) (summary : option Summary)
    (shown : list Element) (sector : string) (sector_df : Grid) :
  load_data fs excel_path = Return ((Some sector_data, summary), shown) →
  sector_data !! sector = Some sector_df →
  ∃ workbook sheet,
    fs !! excel_path = Some (Workbook workbook) ∧
    get_sheet workbook sector = Some sheet ∧
    sector ≠ "Introduction" ∧
    cells sheet = sector_df ∧
    extract_try fs excel_path sector ∅ = scan_images (sheet_images sheet) ∅ ∧
    (∀ ims, sheet_images sheet = Readable <$> ims →
       ∃ images, extract_images_from_sheet fs excel_path sector = Return (images, [])).
Proof.
  intros Hload Hsector.
  destruct (load_data_cases fs excel_path) as
    [[_ Hl] | [(e' & _ & Hl) | [(xls & _ & _ & Hl) | (xls & intro & d & Hf & _ & Hl & Hlook)]]];
    rewrite Hl in Hload; try done.
  injection Hload as <- _ _. rewrite (Hlook sector) in Hsector.
  destruct (decide (sector = "Introduction")) as [| Hne]; [done |].
  destruct (get_sheet xls sector) as [sheet|] eqn:Hsheet; [| done].
  injection Hsector as Hcells. exists xls, sheet.
  pose proof (extract_of_sheet fs excel_path sector xls sheet Hf Hsheet) as Htry.
  repeat split; try done.
  intros ims Hims. unfold extract_images_from_sheet. rewrite Htry, Hims.
  destruct (scan_images_readable ims ∅) as (Hret & _).
  destruct (scan_images (Readable <$> ims) ∅) as [images r]. simpl in Hret. subst r.
  by exists images.
Qed.

Lemma loaded_sector_has_images_witness :
  ∃ (workbook : list (string * Sheet)) (sheet : Sheet),
    get_sheet workbook "S1" = Some sheet ∧ cells sheet = [[CText "Report"]].
Proof.
  destruct (loaded_sector_has_images
    {[ "report.xlsx" := Workbook
         [("Introduction", mkSheet [[CText "Congested Sector ID"]; [CText "S1"]] []);
          ("S1", mkSheet [[CText "Report"]] [Readable (mkImage 25 0 "a")])] ]}
    "report.xlsx" {[ "S1" := [[CText "Report"]] ]}
    (Some (mkSummary [CText "Congested Sector ID"] [[CText "S1"]])) []
    "S1" [[CText "Report"]])
    as (workbook & sheet & _ & Hsheet & _ & Hcells & _).
  - vm_compute. reflexivity.
  - reflexivity.
  - exists workbook, sheet. split; [exact Hsheet | exact Hcells].
Defined.

Lemma summary_empty_header0 (g : Grid) :
  summary_empty (header0 g) = false ↔ ∃ c h r rest, g = (c :: h) :: r :: rest.
Proof.
  destruct g as [|[|c h] [|r rest]]; simpl; split; try done;
    try (by intros (? & ? & ? & ? & ?)).
  intros _. by exists c, h, r, rest.
Qed.

(** X13: after [load_data] has returned, the guard of the script does not
    raise; the script goes on exactly when the workbook has an
    Introduction sheet with a header cell and a row below the header,
    and when it stops for an Introduction sheet without such a row no
    notice has been shown. *)
Theorem guard_after_load (fs : FileSystem) (excel_path : string)
    (loaded : option (gmap string (list (list Cell))) * option Summary)
    (shown : list Element) :
  load_data fs excel_path = Return (loaded, shown) →
  ∃ stop,
    stops_after_load loaded = Return stop ∧
    (stop = false ↔
       ∃ xls intro c h r rest,
         fs !! excel_path = Some (Workbook xls) ∧
         get_sheet xls "Introduction" = Some intro ∧
         cells intro = (c :: h) :: r :: rest) ∧
    (∀ xls intro, fs !! excel_path = Some (Workbook xls) →
       get_sheet xls "Introduction" = Some intro →
       length (cells intro) ≤ 1 → stop = true ∧ shown = []).
Proof.
  intros Hload.
  destruct (load_data_cases fs excel_path) as
    [[Hf Hl] | [(e' & _ & Hl) | [(xls & Hf & Hi & Hl) | (xls & intro & d & Hf & Hi & Hl & _)]]];
    rewrite Hl in Hload; try done; injection Hload as <- <-.
  - exists true. split; [done |]. split; [| by intros xls intro; rewrite Hf].
    split; [done |]. intros (xls & ? & ? & ? & ? & ? & Hf' & _). by rewrite Hf in Hf'.
  - exists true. split; [done |]. split.
    + split; [done |]. intros (xls' & intro & ? & ? & ? & ? & Hf' & Hi' & _).
      rewrite Hf in Hf'. injection Hf' as <-. by rewrite Hi in Hi'.
    + intros xls' intro Hf' Hi'. rewrite Hf in Hf'. injection Hf' as <-. by rewrite Hi in Hi'.
  - exists (summary_empty (header0 (cells intro))). split; [done |]. split.
    + rewrite summary_empty_header0. split.
      * intros (c & h & r & rest & Hcells). by exists xls, intro, c, h, r, rest.
      * intros (xls' & intro' & c & h & r & rest & Hf' & Hi' & Hcells).
        rewrite Hf in Hf'. injection Hf' as <-. rewrite Hi in Hi'. injection Hi' as <-.
        by exists c, h, r, rest.
    + intros xls' intro' Hf' Hi' Hlen.
      rewrite Hf in Hf'. injection Hf' as <-. rewrite Hi in Hi'. injection Hi' as <-.
      split; [| done]. by destruct (cells intro) as [|[|c h] [|r rest]]; simpl in *; try lia.
Qed.

Lemma guard_after_load_witness :
  ∃ stop,
    stops_after_load (Some ∅, Some (mkSummary [CText "Congested Sector ID"] []))
      = Return stop ∧ stop = true.
Proof.
  destruct (guard_after_load
    {[ "report.xlsx" := Workbook
         [("Introduction", mkSheet [[CText "Congested Sector ID"]] [])] ]}
    "report.xlsx" (Some ∅, Some (mkSummary [CText "Congested Sector ID"] [])) [])
    as (stop & Hguard & _ & Hsilent).
  - vm_compute. reflexivity.
  - exists stop. split; [exact Hguard |].
    apply (Hsilent [("Introduction", mkSheet [[CText "Congested Sector ID"]] [])]
                   (mkSheet [[CText "Congested Sector ID"]] [])); [reflexivity.. | simpl; lia].
Defined.

(** ** The password gate *)

(** X14: the callback of the password field, on a session state that holds
    the typed text: it records whether the text is the password,
    removes the text from the session state when it is and keeps it
    when it is not, and leaves every other key alone. Without the
    key "password" it raises KeyError. *)
Theorem password_entered_effect (state : gmap string SessionValue) :
  (state !! "password" = None → password_entered state = Raise (KeyError "password")) ∧
  (∀ typed, state !! "password" = Some (VStr typed) →
     ∃ state',
       password_entered state = Return state' ∧
       state' !! "password_correct" = Some (VBool (bool_decide (typed = "mtn123"))) ∧
       state' !! "password" = (if decide (typed = "mtn123") then None else Some (VStr typed)) ∧
       ∀ k, k ≠ "password" → k ≠ "password_correct" → state' !! k = state !! k).
Proof.
  split.
  - intros Hnone. unfold password_entered. by rewrite Hnone.
  - intros typed Htyped. unfold password_entered. rewrite Htyped.
    destruct (decide (typed = "mtn123")) as [-> | Hne].
    + rewrite decide_True by done. eexists. split; [done |].
      split; [by rewrite lookup_delete_ne, lookup_insert_eq |].
      split; [by rewrite lookup_delete_eq |].
      intros k Hk1 Hk2. by rewrite lookup_delete_ne, lookup_insert_ne.
    + rewrite decide_False by congruence. eexists. split; [done |].
      split; [by rewrite lookup_insert_eq, bool_decide_eq_false_2 |].
      split; [by rewrite lookup_insert_ne |].
      intros k Hk1 Hk2. by rewrite lookup_insert_ne.
Qed.

Lemma password_entered_effect_witness :
  ∃ state',
    password_entered {[ "password" := VStr "guess"; "other" := VBool true ]} = Return state' ∧
    state' !! "password_correct" = Some (VBool false) ∧
    state' !! "password" = Some (VStr "guess").
Proof.
  destruct (proj2 (password_entered_effect
    {[ "password" := VStr "guess"; "other" := VBool true ]}) "guess")
    as (state' & Hrun & Hcorrect & Hkept & _).
  - reflexivity.
  - exists state'. split; [exact Hrun |]. split; [exact Hcorrect | exact Hkept].
Defined.

(** X15: whatever the session state held before, after the callback has
    run on a typed text [check_password] lets the script through
    exactly when the text is the password; when it does not, the
    password field and the error are on the page, and when it does,
    nothing is. *)
Theorem gate_opens_iff_correct (state : gmap string SessionValue) (typed : string) :
  state !! "password" = Some (VStr typed) →
  ∃ state',
    password_entered state = Return state' ∧
    ((check_password state').1 = true ↔ typed = "mtn123") ∧
    (typed = "mtn123" → check_password state' = (true, [])) ∧
    (typed ≠ "mtn123" →
       check_password state' =
         (false, [StTextInput "Password" "password"; Item (StError "😕 Password incorrect")])).
Proof.
  intros Htyped. unfold password_entered. rewrite Htyped.
  destruct (decide (typed = "mtn123")) as [-> | Hne].
  - rewrite decide_True by done. eexists. split; [done |].
    unfold check_password. rewrite lookup_delete_ne, lookup_insert_eq by done. simpl.
    split; [done |]. split; [done |]. by intros ?.
  - rewrite decide_False by congruence. eexists. split; [done |].
    unfold check_password. rewrite lookup_insert_eq. simpl.
    split; [| split; [done |]]; by split.
Qed.

Lemma gate_opens_iff_correct_witness :
  ∃ state',
    password_entered {[ "password" := VStr "mtn123"; "password_correct" := VBool false ]}
      = Return state' ∧
    check_password state' = (true, []).
Proof.
  destruct (gate_opens_iff_correct
    {[ "password" := VStr "mtn123"; "password_correct" := VBool false ]} "mtn123")
    as (state' & Hrun & _ & Hopen & _).
  - reflexivity.
  - exists state'. split; [exact Hrun | by apply Hopen].
Defined.

(** ** The sector detail tab *)

Lemma page_seq_put (items : list PageItem) (q : Page) :
  page_seq (put items) q = (items ++ q.1, q.2).
Proof. done. Qed.

Lemma page_seq_exn (p q : Page) :
  (page_seq p q).2 = match p.2 with
                     | Some e => Some e
                     | None => q.2
                     end.
Proof. unfold page_seq. by destruct p as [items [e|]]. Qed.

Section DetailFacts.
Context `{Pandas}.

Lemma show_table_exn (sector_df : Grid) (T : string) (e : Exn) :
  (show_table sector_df T).2 = Some e ↔ display_table_from_sheet sector_df T = Raise e.
Proof.
  unfold show_table. destruct (display_table_from_sheet sector_df T); simpl;
    split; congruence.
Qed.

Lemma show_table_no_exn (sector_df : Grid) (T : string) :
  (show_table sector_df T).2 = None ↔
  ∀ e, display_table_from_sheet sector_df T ≠ Raise e.
Proof.
  unfold show_table. destruct (display_table_from_sheet sector_df T) as [shown | e0]; simpl.
  - split; [by intros _ e | done].
  - split; [done |]. intros Hno. by destruct (Hno e0).
Qed.

Lemma show_plots_exn (extracted_images : gmap string string) :
  (show_plots extracted_images).2 = None.
Proof. unfold show_plots. rewrite page_seq_exn. by repeat case_match. Qed.

(** X16: for a sector that has a grid, the detail tab ends with an
    exception exactly when one of its four calls of
    [display_table_from_sheet] raises, and the exception is that of
    the first call that raises, in the order of the tab: the
    IndexError of a title first found on the last row of the grid, or
    the ValueError of a table whose trimmed column names are not
    pairwise different. The image list of the sheet, readable or not,
    never ends the tab. *)
Theorem detail_raises_iff (fs : FileSystem) (EXCEL_FILE_PATH : string)
    (sector_data : gmap string (list (list Cell))) (sector : string) (sector_df : Grid)
    (e : Exn) :
  sector ≠ "" →
  sector_data !! sector = Some sector_df →
  ((sector_detail fs EXCEL_FILE_PATH sector_data (Some sector)).2 = Some e ↔
     ∃ before T after,
       detail_titles = before ++ T :: after ∧
       display_table_from_sheet sector_df T = Raise e ∧
       ∀ T' e', T' ∈ before → display_table_from_sheet sector_df T' ≠ Raise e') ∧
  ((sector_detail fs EXCEL_FILE_PATH sector_data (Some sector)).2 = Some e →
     (e = IndexError "single positional indexer is out-of-bounds" ∧
      ∃ T s, T ∈ detail_titles ∧ find_table_start sector_df T = Some s ∧
             S s = length sector_df) ∨
     (e = ValueError "Duplicate column names found" ∧
      ∃ T s header, T ∈ detail_titles ∧ find_table_start sector_df T = Some s ∧
                    sector_df !! (s + 1) = Some header ∧
                    ¬ NoDup (columns (table_frame sector_df s header)))).
Proof.
  intros Hsel Hdf.
  assert ((sector_detail fs EXCEL_FILE_PATH sector_data (Some sector)).2 = Some e ↔
     ∃ before T after,
       detail_titles = before ++ T :: after ∧
       display_table_from_sheet sector_df T = Raise e ∧
       ∀ T' e', T' ∈ before → display_table_from_sheet sector_df T' ≠ Raise e') as Hiff.
  { unfold sector_detail. rewrite decide_False, Hdf by done.
    rewrite !page_seq_exn. simpl.
    assert ((match extract_images_from_sheet fs EXCEL_FILE_PATH sector with
             | Return (extracted_images, notices) =>
                 page_seq (put (Item <$> notices)) (show_plots extracted_images)
             | Raise e0 => ([], Some e0)
             end).2 = None) as ->.
    { destruct (extract_images_from_sheet fs EXCEL_FILE_PATH sector)
        as [[images notices] | e0] eqn:Hx.
      - rewrite page_seq_exn. simpl. apply show_plots_exn.
      - unfold extract_images_from_sheet in Hx. by repeat case_match. }
    unfold detail_titles. split.
    - intros He.
      destruct (show_table sector_df "Recommendation Report for Sector").2
        as [e1|] eqn:H1.
      { injection He as ->. apply show_table_exn in H1.
        exists [], "Recommendation Report for Sector". eexists. split; [done |].
        split; [done |]. intros T' e' Hin. by apply elem_of_nil in Hin. }
      destruct (show_table sector_df "Cellular Parameters for Source and Top Neighbors").2
        as [e2|] eqn:H2.
      { injection He as ->. apply show_table_exn in H2.
        exists ["Recommendation Report for Sector"],
               "Cellular Parameters for Source and Top Neighbors". eexists.
        split; [done |]. split; [done |]. intros T' e' Hin.
        apply list_elem_of_singleton in Hin as ->. by apply show_table_no_exn. }
      destruct (show_table sector_df "Non-Zero Cell Handover Parameter Details").2
        as [e3|] eqn:H3.
      { injection He as ->. apply show_table_exn in H3.
        exists ["Recommendation Report for Sector";
                "Cellular Parameters for Source and Top Neighbors"],
               "Non-Zero Cell Handover Parameter Details". eexists.
        split; [done |]. split; [done |]. intros T' e' Hin.
        repeat (apply elem_of_cons in Hin as [-> | Hin]; [by apply show_table_no_exn |]).
        by apply elem_of_nil in Hin. }
      apply show_table_exn in He.
      exists ["Recommendation Report for Sector";
              "Cellular Parameters for Source and Top Neighbors";
              "Non-Zero Cell Handover Parameter Details"],
             "Forbidden relations table", []. split; [done |]. split; [done |].
      intros T' e' Hin.
      repeat (apply elem_of_cons in Hin as [-> | Hin]; [by apply show_table_no_exn |]).
      by apply elem_of_nil in Hin.
    - intros (before & T & after & Htitles & HT & Hbefore).
      apply show_table_exn in HT.
      assert (∀ T', T' ∈ before → (show_table sector_df T').2 = None) as Hnone.
      { intros T' Hin. apply show_table_no_exn. intros e'. by apply Hbefore. }
      destruct before as [|b1 [|b2 [|b3 [|b4 before]]]]; simplify_eq/=.
      + by rewrite HT.
      + rewrite (Hnone "Recommendation Report for Sector") by set_solver. by rewrite HT.
      + rewrite (Hnone "Recommendation Report for Sector") by set_solver.
        rewrite (Hnone "Cellular Parameters for Source and Top Neighbors") by set_solver.
        by rewrite HT.
      + rewrite (Hnone "Recommendation Report for Sector") by set_solver.
        rewrite (Hnone "Cellular Parameters for Source and Top Neighbors") by set_solver.
        rewrite (Hnone "Non-Zero Cell Handover Parameter Details") by set_solver.
        by rewrite HT.
      + by destruct before. }
  split; [done |]. intros He. apply Hiff in He as (before & T & after & Htitles & HT & _).
  assert (T ∈ detail_titles) as Hin
    by (rewrite Htitles; apply elem_of_app; right; by left).
  destruct (display_cases sector_df T) as
    [[_ Hd] | [(s & Hs & Hlen & Hd) |
     [(s & header & Hs & Hh & Hdup & Hd) | (s & header & _ & _ & _ & Hd)]]];
    rewrite Hd in HT; try done; injection HT as <-.
  - left. split; [done |]. by exists T, s.
  - right. split; [done |]. by exists T, s, header.
Qed.

End DetailFacts.

Lemma detail_raises_iff_witness :
  (sector_detail
     {[ "report.xlsx" := Workbook [("S1", mkSheet [] [Unreadable (KeyError "x")])] ]}
     "report.xlsx"
     {[ "S1" := [[CText "Recommendation Report for Sector"; CNull; CNull];
                 [CText "A"; CText "A"; CText "A_1"];
                 [CNum 1; CNum 2; CNum 3]] ]}
     (Some "S1")).2
  = Some (ValueError "Duplicate column names found").
Proof.
  apply (proj1 (detail_raises_iff
     {[ "report.xlsx" := Workbook [("S1", mkSheet [] [Unreadable (KeyError "x")])] ]}
     "report.xlsx"
     {[ "S1" := [[CText "Recommendation Report for Sector"; CNull; CNull];
                 [CText "A"; CText "A"; CText "A_1"];
                 [CNum 1; CNum 2; CNum 3]] ]}
     "S1"
     [[CText "Recommendation Report for Sector"; CNull; CNull];
      [CText "A"; CText "A"; CText "A_1"];
      [CNum 1; CNum 2; CNum 3]]
     (ValueError "Duplicate column names found")
     ltac:(discriminate) eq_refl)).
  exists [], "Recommendation Report for Sector",
    ["Cellular Parameters for Source and Top Neighbors";
     "Non-Zero Cell Handover Parameter Details"; "Forbidden relations table"].
  split; [reflexivity |]. split; [vm_compute; reflexivity |].
  intros T' e' Hin. by apply elem_of_nil in Hin.
Defined.

Section UnknownSector.
Context `{Pandas}.

(** X17: with the dictionary that [load_data] returned, the detail tab
    shows the header and the error that the data sheet could not be
    found, and nothing else, exactly when the selected sector is not
    the name of a sheet of the workbook or is the name Introduction
    (whose sheet is kept out of the dictionary). *)
Theorem unknown_sector_reported (fs : FileSystem) (EXCEL_FILE_PATH : string)
    (sector_data : gmap string (list (list Cell))) (summary : option Summary)
    (shown : list Element) (sector : string) :
  load_data fs EXCEL_FILE_PATH = Return ((Some sector_data, summary), shown) →
  sector ≠ "" →
  sector_detail fs EXCEL_FILE_PATH sector_data (Some sector) =
    ([StHeader ("Detailed Analysis for: `" +:+ sector +:+ "`");
      Item (StError ("Data sheet for the selected sector '" +:+ sector +:+
                     "' could not be found in the Excel file."))], None)
  ↔ sector = "Introduction" ∨
    ∃ xls, fs !! EXCEL_FILE_PATH = Some (Workbook xls) ∧ get_sheet xls sector = None.
Proof.
  intros Hload Hsel.
  destruct (load_data_cases fs EXCEL_FILE_PATH) as
    [[_ Hl] | [(e' & _ & Hl) | [(xls & _ & _ & Hl) | (xls & intro & d & Hf & _ & Hl & Hlook)]]];
    rewrite Hl in Hload; try done.
  injection Hload as <- _ _. specialize (Hlook sector).
  unfold sector_detail. rewrite decide_False by done.
  destruct (d !! sector) as [sector_df|] eqn:Hdf.
  - rewrite !page_seq_put. split; [by intros [= ?] |].
    destruct (decide (sector = "Introduction")) as [| Hne]; [done |].
    intros [? | (xls' & Hf' & Hnone)]; [done |].
    rewrite Hf in Hf'. injection Hf' as <-. by rewrite Hnone in Hlook.
  - split; [| done]. intros _.
    destruct (decide (sector = "Introduction")) as [| Hne]; [by left |].
    right. exists xls. split; [done |]. by destruct (get_sheet xls sector).
Qed.

End UnknownSector.

Lemma unknown_sector_reported_witness :
  sector_detail
    {[ "report.xlsx" := Workbook
         [("Introduction", mkSheet [[CText "Congested Sector ID"]; [CText "S1"]] []);
          ("S1", mkSheet [[CText "Report"]] [])] ]}
    "report.xlsx" {[ "S1" := [[CText "Report"]] ]} (Some "Introduction")
  = ([StHeader "Detailed Analysis for: `Introduction`";
      Item (StError "Data sheet for the selected sector 'Introduction' could not be found in the Excel file.")],
     None).
Proof.
  apply (unknown_sector_reported
    {[ "report.xlsx" := Workbook
         [("Introduction", mkSheet [[CText "Congested Sector ID"]; [CText "S1"]] []);
          ("S1", mkSheet [[CText "Report"]] [])] ]}
    "report.xlsx" {[ "S1" := [[CText "Report"]] ]}
    (Some (mkSummary [CText "Congested Sector ID"] [[CText "S1"]])) []
    "Introduction").
  - vm_compute. reflexivity.
  - discriminate.
  - by left.
Defined.

(** ** What the table shown depends on *)




Section BlockFacts.
Context `{Pandas}.




End BlockFacts.


